(** * examples/automation.py: call-backs of a spreadsheet add-in

    The module registers one menu function, three control macros and one
    worksheet function with the add-in runtime (pyxll); each of them calls
    back into the spreadsheet host through its COM automation interface
    (win32com).

    The development has three layers.

    - [prog]: the Python code, written in a small monad of its own.  A
      program is a tree whose nodes are the calls that leave the module
      ([Do]: imports, pyxll and win32com functions, attribute reads and
      writes and calls on host objects), the operations on the module's own
      state ([Py]: its global names, the logger, the registrations, the
      functions handed to [pyxll.async_call]) and the [try] statement.
    - [run]: an interpreter of [prog] against any host, given as a state
      type and a function that answers one call with a value or an
      exception.  It returns the outcome, the states and the trace of calls.
    - [excel]: a reference host (pyxll runtime, win32com wrappers, the
      active workbook), used where a statement is about cells and ranges. *)

From Stdlib Require Import ZArith List String Bool Lia.
From Stdlib Require Import Floats.SpecFloat.
Import ListNotations.
Open Scope string_scope.
Open Scope list_scope.
Open Scope Z_scope.
Set Warnings "-register-all".

(** ** Python values *)

(** Numbers that cross the COM boundary as VT_R8 are Python floats, that is
    IEEE 754 binary64. *)
Definition prec : Z := 53.
Definition emax : Z := 1024.

Definition float_of_Z (n : Z) : spec_float := binary_normalize prec emax n 0 false.
Definition float_add : spec_float -> spec_float -> spec_float := SFadd prec emax.

(** Plain data: what a cell, a control or a worksheet-function argument holds
    once converted to Python ([None], [bool], [int], [float], [str], and the
    tuple of row tuples of a range of several cells). *)
Inductive data : Type :=
| DNone
| DBool (b : bool)
| DInt (n : Z)
| DFloat (f : spec_float)
| DStr (s : string)
| DArray (rows : list (list data)).

(** A rectangle of cells on the active sheet; rows and columns count from 1. *)
Record rect : Type := Rect { top : Z; left : Z; height : Z; width : Z }.

(** Objects of the host's automation model. *)
Inductive com : Type :=
| CWindow
| CApplication
| CWorksheet
| CRange (r : rect)
| CCheckBox (name : string)
| CScrollBar (name : string).

(** The names read or written on host objects in this module. *)
Inductive member : Type :=
| Application | Selection | Value | ActiveSheet | Caller | Range
| CheckBoxes | ScrollBars | Resize
| Address.     (* the [address] attribute of a pyxll XLCell *)

(** Python-side references to host objects. *)
Inductive pyobj : Type :=
| PyIDispatch (c : com)               (* a bare interface pointer *)
| CDispatch (c : com)                 (* a win32com.client Dispatch wrapper *)
| BoundMethod (c : com) (m : member)  (* [wrapper.m], when [m] is a method *)
| XLCell (r : rect).                  (* pyxll's reference to a cell *)

Inductive value : Type :=
| VData (d : data)
| VObj (o : pyobj)
| VModule (name : string)
| VLogger
| VFunction (name : string).

Definition None_ : value := VData DNone.
Definition str (s : string) : value := VData (DStr s).
Definition int (n : Z) : value := VData (DInt n).

Definition is_handle (v : value) : bool :=
  match v with VObj _ => true | _ => false end.

Inductive exn : Type :=
| NameError (name : string)
| TypeError
| AttributeError
| OverflowError
| ImportError (module : string)
| com_error (hresult : Z).

(** [v + n] for an int [n]: int and bool add as integers, a float adds after
    converting [n]; every other operand raises TypeError. *)
Definition py_add_int (v : value) (n : Z) : value + exn :=
  match v with
  | VData (DInt a) => inl (int (a + n))
  | VData (DBool b) => inl (int (Z.b2z b + n))
  | VData (DFloat f) =>
      match float_of_Z n with
      | S754_infinity _ => inr OverflowError
      | g => inl (VData (DFloat (float_add f g)))
      end
  | _ => inr TypeError
  end.

(** [v == n] for an int [n]. *)
Definition py_eq_int (v : value) (n : Z) : bool :=
  match v with
  | VData (DInt a) => Z.eqb a n
  | VData (DBool b) => Z.eqb (Z.b2z b) n
  | VData (DFloat f) => SFeqb f (float_of_Z n)
  | _ => false
  end.

(** ** Calls that leave the module *)

Inductive libfn : Type :=
| get_active_object     (* pyxll.get_active_object *)
| xlcAlert              (* pyxll.xlcAlert *)
| xlfCaller             (* pyxll.xlfCaller *)
| Dispatch              (* win32com.client.Dispatch *)
| EnsureDispatch.       (* win32com.client.gencache.EnsureDispatch *)

Inductive call : Type :=
| Import (module : string)
| Lib (f : libfn) (args : list value)
| GetAttr (o : value) (m : member)
| SetAttr (o : value) (m : member) (v : value)
| Call (f : value) (args : list value).

(** ** The module's own state *)

(** How a function is registered with the add-in runtime. *)
Inductive trigger : Type :=
| Menu (item sub_menu : string)                (* @xl_menu(item, sub_menu=...) *)
| Macro                                        (* @xl_macro() *)
| Function (signature : string) (macro : bool). (* @xl_func(signature, macro=...) *)

Record registration : Type :=
  Registered { reg_trigger : trigger; reg_function : string }.

(** The inner function [update_func] of [automation_example] together with
    the cells of its closure: the free variables of its body. *)
Record closure : Type :=
  UpdateFunc { cl_address : value; cl_rows : Z; cl_cols : Z; cl_value : data }.

Inductive pyop : Type :=
| LoadGlobal (name : string)
| StoreGlobal (name : string) (v : value)
| Warning (msg : string)          (* _log.warning(msg) *)
| Register (r : registration)     (* a pyxll decorator applied to a def *)
| AsyncCall (f : closure).        (* pyxll.async_call(f) *)

Record pystate : Type := PyState {
  globals : list (string * value);
  log : list string;
  registry : list registration;
  pending : list closure
}.

Definition empty_module : pystate := PyState [] [] [] [].

(** ** Programs *)

Inductive prog : Type :=
| Ret (v : value)
| Raise (e : exn)
| Do (c : call) (k : value -> prog)
| Py (op : pyop) (k : value -> prog)
| Try (body : prog) (catches : exn -> bool) (handler : prog) (k : prog).

Fixpoint bind (p : prog) (f : value -> prog) : prog :=
  match p with
  | Ret v => f v
  | Raise e => Raise e
  | Do c k => Do c (fun v => bind (k v) f)
  | Py op k => Py op (fun v => bind (k v) f)
  | Try body catches handler k => Try body catches handler (bind k f)
  end.

Declare Scope py_scope.
Delimit Scope py_scope with py.
Notation "x <- p ;; q" := (bind p (fun x => q))
  (at level 100, p at next level, right associativity) : py_scope.
Notation "p ;; q" := (bind p (fun _ => q))
  (at level 100, right associativity) : py_scope.
Open Scope py_scope.

Definition lib (f : libfn) (args : list value) : prog := Do (Lib f args) Ret.
Definition getattr (o : value) (m : member) : prog := Do (GetAttr o m) Ret.
Definition setattr (o : value) (m : member) (v : value) : prog := Do (SetAttr o m v) Ret.
Definition call_ (f : value) (args : list value) : prog := Do (Call f args) Ret.
Definition import (module : string) : prog := Do (Import module) Ret.
Definition load_global (name : string) : prog := Py (LoadGlobal name) Ret.
Definition store_global (name : string) (v : value) : prog := Py (StoreGlobal name v) Ret.
Definition warning (msg : string) : prog := Py (Warning msg) Ret.
Definition register (r : registration) : prog := Py (Register r) Ret.
Definition async_call (f : closure) : prog := Py (AsyncCall f) Ret.
Definition lift (r : value + exn) : prog :=
  match r with inl v => Ret v | inr e => Raise e end.

(** [o.m(args)]: the attribute is read first, then the result is called. *)
Definition invoke (o : value) (m : member) (args : list value) : prog :=
  f <- getattr o m ;; call_ f args.

Definition try_except (body : prog) (catches : exn -> bool) (handler : prog) : prog :=
  Try body catches handler (Ret None_).

Definition is_ImportError (e : exn) : bool :=
  match e with ImportError _ => true | _ => false end.

(** ** The module

    Names bound without condition when the module is imported ([pyxll],
    [_log], [xl_app], ...) are resolved statically.  [win32com] is bound
    inside a [try], so every use of it is a lookup in the module's globals
    that raises NameError when the name is unbound. *)

(** [xl_app()], lines 76-86. *)
Definition xl_app : prog :=
  xl_window <- lib get_active_object [] ;;
  load_global "win32com" ;;
  d <- lib Dispatch [xl_window] ;;
  xl_app <- getattr d Application ;;
  load_global "win32com" ;;
  lib EnsureDispatch [xl_app] ;;
  Ret xl_app.

(** [win32com_menu_test()], lines 93-98. *)
Definition win32com_menu_test_body (xl : value) : prog :=
  selection <- getattr xl Selection ;;
  setattr selection Value (str "Hello!") ;;
  lib xlcAlert [str "Some text has been written to the current cell"] ;;
  Ret None_.

Definition win32com_menu_test : prog :=
  xl <- xl_app ;; win32com_menu_test_body xl.

(** [button_example()], lines 108-112.  In [range.Value = range.Value + 1]
    the right-hand side is evaluated before the attribute is set. *)
Definition button_example_body (xl : value) : prog :=
  range <- invoke xl Range [str "button_output"] ;;
  v <- getattr range Value ;;
  w <- lift (py_add_int v 1) ;;
  setattr range Value w ;;
  Ret None_.

Definition button_example : prog :=
  xl <- xl_app ;; button_example_body xl.

(** [checkbox_example()], lines 114-121.  In [f(a)] the callee [f] is
    evaluated before the argument [a]. *)
Definition checkbox_example_body (xl : value) : prog :=
  sheet <- getattr xl ActiveSheet ;;
  CheckBoxes_ <- getattr sheet CheckBoxes ;;
  caller <- getattr xl Caller ;;
  check_box <- call_ CheckBoxes_ [caller] ;;
  v <- getattr check_box Value ;;
  if py_eq_int v 1 then
    range <- invoke xl Range [str "checkbox_output"] ;;
    setattr range Value (str "CHECKED!") ;;
    Ret None_
  else
    range <- invoke xl Range [str "checkbox_output"] ;;
    setattr range Value (str "Click the check box") ;;
    Ret None_.

Definition checkbox_example : prog :=
  xl <- xl_app ;; checkbox_example_body xl.

(** [scrollbar_example()], lines 123-128. *)
Definition scrollbar_example_body (xl : value) : prog :=
  caller <- getattr xl Caller ;;
  sheet <- getattr xl ActiveSheet ;;
  ScrollBars_ <- getattr sheet ScrollBars ;;
  caller' <- getattr xl Caller ;;
  scrollbar <- call_ ScrollBars_ [caller'] ;;
  v <- getattr scrollbar Value ;;
  range <- invoke xl Range [str "scrollbar_output"] ;;
  setattr range Value v ;;
  Ret None_.

Definition scrollbar_example : prog :=
  xl <- xl_app ;; scrollbar_example_body xl.

(** [update_func()], lines 162-170, as a function of the variables it
    closes over. *)
Definition update_func_body (address : value) (rows cols : Z) (value_ : data)
    (xl : value) : prog :=
  range <- invoke xl Range [address] ;;
  Range_ <- getattr xl Range ;;
  a <- invoke range Resize [int 2; int 1] ;;
  b <- invoke range Resize [int (rows + 1); int cols] ;;
  range <- call_ Range_ [a; b] ;;
  setattr range Value (VData value_) ;;
  Ret None_.

Definition update_func (address : value) (rows cols : Z) (value_ : data) : prog :=
  xl <- xl_app ;; update_func_body address rows cols value_ xl.

Definition closure_code (f : closure) : prog :=
  update_func (cl_address f) (cl_rows f) (cl_cols f) (cl_value f).

(** [automation_example(rows, cols, value)], lines 152-175; the signature
    ["int rows, int cols, var value"] makes [rows] and [cols] ints and
    [value] plain data. *)
Definition automation_example (rows cols : Z) (value_ : data) : prog :=
  caller <- lib xlfCaller [] ;;
  address <- getattr caller Address ;;
  async_call (UpdateFunc address rows cols value_) ;;
  Ret address.

(** The module's top level, lines 38-153: what importing it executes. *)
Definition module_body : prog :=
  m <- import "pyxll" ;;
  store_global "pyxll" m ;;
  import "pyxll" ;;
  store_global "xl_menu" (VFunction "pyxll.xl_menu") ;;
  store_global "xl_func" (VFunction "pyxll.xl_func") ;;
  store_global "xl_macro" (VFunction "pyxll.xl_macro") ;;
  m <- import "logging" ;;
  store_global "logging" m ;;
  store_global "_log" VLogger ;;
  try_except
    (import "win32com.client" ;;
     store_global "win32com" (VModule "win32com"))
    is_ImportError
    (warning "*** win32com.client could not be imported          ***" ;;
     warning "*** some of the automation examples will not work  ***" ;;
     warning "*** to fix this, install the pywin32 extensions.   ***") ;;
  store_global "xl_app" (VFunction "xl_app") ;;
  register (Registered (Menu "win32com test" "More Examples") "win32com_menu_test") ;;
  store_global "win32com_menu_test" (VFunction "win32com_menu_test") ;;
  register (Registered Macro "button_example") ;;
  store_global "button_example" (VFunction "button_example") ;;
  register (Registered Macro "checkbox_example") ;;
  store_global "checkbox_example" (VFunction "checkbox_example") ;;
  register (Registered Macro "scrollbar_example") ;;
  store_global "scrollbar_example" (VFunction "scrollbar_example") ;;
  register (Registered (Function "int rows, int cols, var value" true)
                       "automation_example") ;;
  store_global "automation_example" (VFunction "automation_example") ;;
  Ret None_.

(** The registered call-backs, and one invocation of a call-back by the
    host: a call-back and its arguments. *)
Inductive callback : Type :=
| cb_win32com_menu_test
| cb_button_example
| cb_checkbox_example
| cb_scrollbar_example
| cb_automation_example.

Inductive invocation : Type :=
| inv_win32com_menu_test
| inv_button_example
| inv_checkbox_example
| inv_scrollbar_example
| inv_automation_example (rows cols : Z) (value_ : data).

Definition callback_of (i : invocation) : callback :=
  match i with
  | inv_win32com_menu_test => cb_win32com_menu_test
  | inv_button_example => cb_button_example
  | inv_checkbox_example => cb_checkbox_example
  | inv_scrollbar_example => cb_scrollbar_example
  | inv_automation_example _ _ _ => cb_automation_example
  end.

Definition function_name (c : callback) : string :=
  match c with
  | cb_win32com_menu_test => "win32com_menu_test"
  | cb_button_example => "button_example"
  | cb_checkbox_example => "checkbox_example"
  | cb_scrollbar_example => "scrollbar_example"
  | cb_automation_example => "automation_example"
  end.

Definition code (i : invocation) : prog :=
  match i with
  | inv_win32com_menu_test => win32com_menu_test
  | inv_button_example => button_example
  | inv_checkbox_example => checkbox_example
  | inv_scrollbar_example => scrollbar_example
  | inv_automation_example rows cols value_ => automation_example rows cols value_
  end.

(** ** Running a program against a host *)

Definition response : Type := value + exn.
Definition event : Type := call * response.

Inductive outcome : Type :=
| Returned (v : value)
| Raised (e : exn).

Fixpoint lookup (name : string) (g : list (string * value)) : option value :=
  match g with
  | [] => None
  | (n, v) :: g' => if String.eqb n name then Some v else lookup name g'
  end.

Definition step_py (op : pyop) (s : pystate) : response * pystate :=
  match op with
  | LoadGlobal name =>
      match lookup name (globals s) with
      | Some v => (inl v, s)
      | None => (inr (NameError name), s)
      end
  | StoreGlobal name v =>
      (inl None_, PyState ((name, v) :: globals s) (log s) (registry s) (pending s))
  | Warning msg =>
      (inl None_, PyState (globals s) (log s ++ [msg]) (registry s) (pending s))
  | Register r =>
      (inl None_, PyState (globals s) (log s) (registry s ++ [r]) (pending s))
  | AsyncCall f =>
      (inl None_, PyState (globals s) (log s) (registry s) (pending s ++ [f]))
  end.

Definition is_write (c : call) : bool :=
  match c with SetAttr _ _ _ => true | _ => false end.

Definition writes (t : list event) : list event :=
  filter (fun ev => is_write (fst ev)) t.

Definition calls (t : list event) : list call := map fst t.

Definition raised_in (t : list event) (e : exn) : Prop :=
  exists c, In (c, inr e) t.

Section Interpreter.

Variable H : Type.
Variable serve : call -> H -> response * H.

Record result : Type := Result {
  outcome_of : outcome;
  py_of : pystate;
  host_of : H;
  trace_of : list event
}.

Definition after (t : list event) (x : result) : result :=
  Result (outcome_of x) (py_of x) (host_of x) (t ++ trace_of x).

Fixpoint run (p : prog) (s : pystate) (h : H) : result :=
  match p with
  | Ret v => Result (Returned v) s h []
  | Raise e => Result (Raised e) s h []
  | Do c k =>
      match serve c h with
      | (inl v, h') => after [(c, inl v)] (run (k v) s h')
      | (inr e, h') => Result (Raised e) s h' [(c, inr e)]
      end
  | Py op k =>
      match step_py op s with
      | (inl v, s') => run (k v) s' h
      | (inr e, s') => Result (Raised e) s' h []
      end
  | Try body catches handler k =>
      let x := run body s h in
      match outcome_of x with
      | Returned _ => after (trace_of x) (run k (py_of x) (host_of x))
      | Raised e =>
          if catches e then
            let y := after (trace_of x) (run handler (py_of x) (host_of x)) in
            match outcome_of y with
            | Returned _ => after (trace_of y) (run k (py_of y) (host_of y))
            | Raised _ => y
            end
          else x
      end
  end.

(** The host runs the functions handed to [async_call] later, one after
    the other, outside the call-back that scheduled them. *)
Definition take_pending (s : pystate) : pystate :=
  PyState (globals s) (log s) (registry s) [].

Fixpoint run_pending (fs : list closure) (s : pystate) (h : H) : list result :=
  match fs with
  | [] => []
  | f :: fs' =>
      let x := run (closure_code f) s h in
      x :: run_pending fs' (py_of x) (host_of x)
  end.

Definition last_host (xs : list result) (h : H) : H :=
  fold_left (fun _ x => host_of x) xs h.

(** One invocation by the host: the call-back itself, which runs while the
    host waits for it (a worksheet function runs during calculation), then
    the functions it scheduled.  Functions scheduled earlier have been taken
    by the host already. *)
Record invoked : Type := Invoked {
  synchronous : result;
  asynchronous : list result
}.

Definition invoke_callback (i : invocation) (s : pystate) (h : H) : invoked :=
  let x := run (code i) (take_pending s) h in
  Invoked x (run_pending (pending (py_of x)) (take_pending (py_of x)) (host_of x)).

Definition async_trace (v : invoked) : list event :=
  flat_map trace_of (asynchronous v).

Definition final_host (v : invoked) : H :=
  last_host (asynchronous v) (host_of (synchronous v)).

End Interpreter.

Arguments Result {H}.
Arguments outcome_of {H}.
Arguments py_of {H}.
Arguments host_of {H}.
Arguments trace_of {H}.
Arguments after {H}.
Arguments run {H}.
Arguments run_pending {H}.
Arguments last_host {H}.
Arguments Invoked {H}.
Arguments synchronous {H}.
Arguments asynchronous {H}.
Arguments invoke_callback {H}.
Arguments async_trace {H}.
Arguments final_host {H}.

(** ** A reference host

    The add-in runtime, the win32com wrappers and the active workbook, as
    far as this module reaches them.  None of it is code of the module; the
    model follows the documented behaviour of the three libraries.

    - A cell holds the Python value COM returns for it ([None] when empty).
      Reading [Value] of one cell gives that value, of a larger range the
      tuple of its rows; writing a scalar fills the range, writing an array
      distributes it (cells beyond the array get the #N/A error code).
    - [Application.Range(text)] resolves a defined name or an address
      ([resolve]); [Application.Range(a, b)] is the smallest rectangle that
      holds both ranges.
    - win32com exposes a COM property whose parameters are all optional as
      an attribute: [range.Resize] reads the property with no argument,
      which is the range itself, and [range.Resize(i, j)] then calls that
      Range object, that is its default member [Item(i, j)]: the cell in
      row [i] and column [j] counted from the range's first cell.
      [Application.Range], whose first parameter is required, is a method.
    - [Application.Caller] is the name of the control that ran the macro, or
      the calling cell of a worksheet function. *)

Inductive caller_kind : Type :=
| CallerControl (name : string)
| CallerCell (r : rect)
| NoCaller.

Record excel : Type := Excel {
  pywin32_installed : bool;
  sheet_rows : Z;
  sheet_cols : Z;
  cells : Z -> Z -> data;
  resolve : string -> option rect;
  address_of : rect -> string;
  selection : rect;
  check_box : string -> option data;
  scroll_bar : string -> option data;
  caller : caller_kind;
  alerts : list string
}.

Definition set_cells (h : excel) (c : Z -> Z -> data) : excel :=
  Excel (pywin32_installed h) (sheet_rows h) (sheet_cols h) c (resolve h)
        (address_of h) (selection h) (check_box h) (scroll_bar h) (caller h)
        (alerts h).

Definition add_alert (h : excel) (msg : string) : excel :=
  Excel (pywin32_installed h) (sheet_rows h) (sheet_cols h) (cells h) (resolve h)
        (address_of h) (selection h) (check_box h) (scroll_bar h) (caller h)
        (alerts h ++ [msg]).

Definition DISP_E_EXCEPTION : Z := -2147352567.
Definition xlErrNA : Z := -2146826246.
Definition xlErrRef : Z := -2146826265.

Definition wrap (c : com) : value := VObj (CDispatch c).

Definition inside (r : rect) (i j : Z) : bool :=
  (top r <=? i) && (i <? top r + height r) &&
  (left r <=? j) && (j <? left r + width r).

Definition on_sheet (h : excel) (r : rect) : bool :=
  (1 <=? top r) && (1 <=? left r) && (1 <=? height r) && (1 <=? width r) &&
  (top r + height r - 1 <=? sheet_rows h) &&
  (left r + width r - 1 <=? sheet_cols h).

Definition single_cell (r : rect) : bool :=
  (height r =? 1) && (width r =? 1).

Definition range_object (h : excel) (r : rect) : response :=
  if on_sheet h r then inl (wrap (CRange r)) else inr (com_error DISP_E_EXCEPTION).

Definition read_range (h : excel) (r : rect) : data :=
  if single_cell r then cells h (top r) (left r)
  else DArray
         (map (fun i =>
                 map (fun j => cells h (top r + Z.of_nat i) (left r + Z.of_nat j))
                     (seq 0 (Z.to_nat (width r))))
              (seq 0 (Z.to_nat (height r)))).

Definition element (d : data) (i j : nat) : data :=
  match d with
  | DArray rows =>
      match nth_error rows i with
      | Some row =>
          match nth_error row j with
          | Some x => x
          | None => DInt xlErrNA
          end
      | None => DInt xlErrNA
      end
  | _ => d
  end.

Definition write_range (r : rect) (d : data) (c : Z -> Z -> data) : Z -> Z -> data :=
  fun i j =>
    if inside r i j then element d (Z.to_nat (i - top r)) (Z.to_nat (j - left r))
    else c i j.

Definition item (r : rect) (i j : Z) : rect :=
  Rect (top r + i - 1) (left r + j - 1) 1 1.

Definition bounding (a b : rect) : rect :=
  let t := Z.min (top a) (top b) in
  let l := Z.min (left a) (left b) in
  Rect t l
       (Z.max (top a + height a) (top b + height b) - t)
       (Z.max (left a + width a) (left b + width b) - l).

Definition com_get (h : excel) (c : com) (m : member) : response :=
  match c, m with
  | CWindow, Application => inl (wrap CApplication)
  | CApplication, Application => inl (wrap CApplication)
  | CApplication, Selection => range_object h (selection h)
  | CApplication, ActiveSheet => inl (wrap CWorksheet)
  | CApplication, Caller =>
      match caller h with
      | CallerControl name => inl (str name)
      | CallerCell r => range_object h r
      | NoCaller => inl (int xlErrRef)
      end
  | CApplication, Range => inl (VObj (BoundMethod CApplication Range))
  | CWorksheet, Application => inl (wrap CApplication)
  | CWorksheet, Range => inl (VObj (BoundMethod CWorksheet Range))
  | CWorksheet, CheckBoxes => inl (VObj (BoundMethod CWorksheet CheckBoxes))
  | CWorksheet, ScrollBars => inl (VObj (BoundMethod CWorksheet ScrollBars))
  | CRange r, Application => inl (wrap CApplication)
  | CRange r, Value => inl (VData (read_range h r))
  | CRange r, Resize => inl (wrap (CRange r))
  | CCheckBox name, Value =>
      match check_box h name with
      | Some d => inl (VData d)
      | None => inr (com_error DISP_E_EXCEPTION)
      end
  | CScrollBar name, Value =>
      match scroll_bar h name with
      | Some d => inl (VData d)
      | None => inr (com_error DISP_E_EXCEPTION)
      end
  | _, _ => inr AttributeError
  end.

Definition com_call (h : excel) (c : com) (m : member) (args : list value) : response :=
  match c, m, args with
  | (CApplication | CWorksheet), Range, [VData (DStr text)] =>
      match resolve h text with
      | Some r => range_object h r
      | None => inr (com_error DISP_E_EXCEPTION)
      end
  | (CApplication | CWorksheet), Range,
    [VObj (CDispatch (CRange a)); VObj (CDispatch (CRange b))] =>
      range_object h (bounding a b)
  | CWorksheet, CheckBoxes, [VData (DStr name)] =>
      match check_box h name with
      | Some _ => inl (wrap (CCheckBox name))
      | None => inr (com_error DISP_E_EXCEPTION)
      end
  | CWorksheet, ScrollBars, [VData (DStr name)] =>
      match scroll_bar h name with
      | Some _ => inl (wrap (CScrollBar name))
      | None => inr (com_error DISP_E_EXCEPTION)
      end
  | _, _, _ => inr (com_error DISP_E_EXCEPTION)
  end.

Definition excel_serve (c : call) (h : excel) : response * excel :=
  match c with
  | Import module =>
      if String.eqb module "pyxll" || String.eqb module "logging" then
        (inl (VModule module), h)
      else if String.eqb module "win32com.client" && pywin32_installed h then
        (inl (VModule module), h)
      else (inr (ImportError module), h)
  | Lib get_active_object [] => (inl (VObj (PyIDispatch CWindow)), h)
  | Lib Dispatch [VObj (PyIDispatch c)] => (inl (wrap c), h)
  | Lib Dispatch [VObj (CDispatch c)] => (inl (wrap c), h)
  | Lib EnsureDispatch [VObj (CDispatch c)] => (inl (wrap c), h)
  | Lib xlcAlert [VData (DStr msg)] => (inl None_, add_alert h msg)
  | Lib xlfCaller [] =>
      match caller h with
      | CallerCell r => (inl (VObj (XLCell r)), h)
      | _ => (inr (com_error DISP_E_EXCEPTION), h)
      end
  | Lib _ _ => (inr TypeError, h)
  | GetAttr (VObj (CDispatch c)) m => (com_get h c m, h)
  | GetAttr (VObj (XLCell r)) Address => (inl (str (address_of h r)), h)
  | GetAttr _ _ => (inr AttributeError, h)
  | SetAttr (VObj (CDispatch (CRange r))) Value (VData d) =>
      (inl None_, set_cells h (write_range r d (cells h)))
  | SetAttr (VObj (CDispatch _)) _ _ => (inr (com_error DISP_E_EXCEPTION), h)
  | SetAttr _ _ _ => (inr AttributeError, h)
  | Call (VObj (BoundMethod c m)) args => (com_call h c m args, h)
  | Call (VObj (CDispatch (CRange r))) [VData (DInt i); VData (DInt j)] =>
      (range_object h (item r i j), h)
  | Call (VObj (CDispatch _)) _ => (inr (com_error DISP_E_EXCEPTION), h)
  | Call _ _ => (inr TypeError, h)
  end.

(** The state of the module once imported into [h], and an invocation on
    the reference host. *)
Definition imported (h : excel) : result excel :=
  run excel_serve module_body empty_module h.

Definition excel_invoke (i : invocation) (h : excel) : invoked excel :=
  invoke_callback excel_serve i (py_of (imported h)) h.

(** ** A sample workbook *)

Definition B2 : rect := Rect 2 2 1 1.
Definition A5 : rect := Rect 5 1 1 1.
Definition A6 : rect := Rect 6 1 1 1.
Definition A7 : rect := Rect 7 1 1 1.

Definition rect_eqb (a b : rect) : bool :=
  (top a =? top b) && (left a =? left b) &&
  (height a =? height b) && (width a =? width b).

Definition sample_resolve (text : string) : option rect :=
  if String.eqb text "button_output" then Some A5
  else if String.eqb text "checkbox_output" then Some A6
  else if String.eqb text "scrollbar_output" then Some A7
  else if String.eqb text "$B$2" then Some B2
  else None.

Definition sample_address (r : rect) : string :=
  if rect_eqb r B2 then "$B$2" else "".

Definition sample_cells (i j : Z) : data :=
  if (i =? 5) && (j =? 1) then DFloat (float_of_Z 41) else DNone.

Definition sample_check_box (name : string) : option data :=
  if String.eqb name "Check Box 1" then Some (DInt 1) else None.

Definition sample_scroll_bar (name : string) : option data :=
  if String.eqb name "Scroll Bar 1" then Some (DInt 30) else None.

(** The workbook as a click on the check box finds it. *)
Definition sample : excel :=
  Excel true 1048576 16384 sample_cells sample_resolve sample_address
        (Rect 1 1 1 1) sample_check_box sample_scroll_bar
        (CallerControl "Check Box 1") [].

Definition with_caller (h : excel) (c : caller_kind) : excel :=
  Excel (pywin32_installed h) (sheet_rows h) (sheet_cols h) (cells h) (resolve h)
        (address_of h) (selection h) (check_box h) (scroll_bar h) c (alerts h).

Definition with_pywin32 (h : excel) (b : bool) : excel :=
  Excel b (sheet_rows h) (sheet_cols h) (cells h) (resolve h)
        (address_of h) (selection h) (check_box h) (scroll_bar h) (caller h)
        (alerts h).

(** The same workbook while cell B2, which holds
    [=automation_example(...)], is calculated. *)
Definition sample_calc : excel := with_caller sample (CallerCell B2).

(** The same workbook with text in the cell named button_output. *)
Definition sample_text : excel :=
  set_cells sample (write_range A5 (DStr "abc") (cells sample)).

(** The same workbook on a machine without the pywin32 extensions. *)
Definition sample_no_pywin32 : excel := with_pywin32 sample false.

(** ** Properties of programs that hold against every host *)

(** [handler_free p]: no [try] statement anywhere in [p]. *)
Fixpoint handler_free (p : prog) : Prop :=
  match p with
  | Ret _ | Raise _ => True
  | Do _ k => forall v, handler_free (k v)
  | Py _ k => forall v, handler_free (k v)
  | Try _ _ _ _ => False
  end.

(** [wp p s t post]: whatever the host answers, running [p] from the module
    state [s] after the calls [t] ends in an outcome, a module state and a
    trace that satisfy [post]. *)
Fixpoint wp (p : prog) (s : pystate) (t : list event)
    (post : outcome -> pystate -> list event -> Prop) : Prop :=
  match p with
  | Ret v => post (Returned v) s t
  | Raise e => post (Raised e) s t
  | Do c k =>
      (forall v, wp (k v) s (t ++ [(c, inl v)]) post) /\
      (forall e, post (Raised e) s (t ++ [(c, inr e)]))
  | Py op k =>
      match step_py op s with
      | (inl v, s') => wp (k v) s' t post
      | (inr e, s') => post (Raised e) s' t
      end
  | Try body catches handler k =>
      wp body s t (fun o s1 t1 =>
        match o with
        | Returned _ => wp k s1 t1 post
        | Raised e =>
            if catches e then
              wp handler s1 t1 (fun o2 s2 t2 =>
                match o2 with
                | Returned _ => wp k s2 t2 post
                | Raised _ => post o2 s2 t2
                end)
            else post o s1 t1
        end)
  end.

(** Everything a call-back or a scheduled function can be entered as. *)
Inductive entry : Type :=
| Callback (i : invocation)
| Scheduled (f : closure).

Definition entry_code (e : entry) : prog :=
  match e with
  | Callback i => code i
  | Scheduled f => closure_code f
  end.

(** What the host lets a registered function do (lines 11-32 of the module's
    documentation): commands may change documents, plain worksheet functions
    may only read, macro-sheet-equivalent functions may do most of what a
    command may. *)
Inductive capability : Type :=
| Command
| MacroSheetEquivalent
| WorksheetFunction.

Definition capability_of (t : trigger) : capability :=
  match t with
  | Menu _ _ => Command
  | Macro => Command
  | Function _ true => MacroSheetEquivalent
  | Function _ false => WorksheetFunction
  end.

Definition may_change_documents (c : capability) : bool :=
  match c with
  | WorksheetFunction => false
  | _ => true
  end.

(** The values in the cells of a closure. *)
Definition captured (f : closure) : list value :=
  [cl_address f; int (cl_rows f); int (cl_cols f); VData (cl_value f)].

(** Whether the module state (its globals and the functions it has handed
    to [async_call]) holds a reference to a host object. *)
Definition holds_handle (s : pystate) : bool :=
  existsb (fun nv => is_handle (snd nv)) (globals s) ||
  existsb (fun f => existsb is_handle (captured f)) (pending s).

(** Reads and writes of properties of host objects: every attribute write,
    and every attribute read that is not the lookup of a method. *)
Definition is_property_access (ev : event) : bool :=
  match ev with
  | (SetAttr _ _ _, _) => true
  | (GetAttr _ _, inl (VObj (BoundMethod _ _))) => false
  | (GetAttr _ _, _) => true
  | _ => false
  end.

Definition property_accesses (t : list event) : list event :=
  filter is_property_access t.

Definition is_value_write (c : call) : bool :=
  match c with SetAttr _ Value _ => true | _ => false end.

Definition returned (o : outcome) : bool :=
  match o with Returned _ => true | Raised _ => false end.


(** ** Shapes of traces *)

(** The trace and outcome of [xl_app]: the active window from pyxll, its
    Dispatch wrapper, the wrapper's [Application], and the call that makes
    sure the generated wrappers exist; or a prefix of these that ends in the
    exception raised. *)
Definition xl_app_post (o : outcome) (s : pystate) (t : list event) : Prop :=
  match o with
  | Returned v =>
      exists w d x,
        t = [(Lib get_active_object [], inl w);
             (Lib Dispatch [w], inl d);
             (GetAttr d Application, inl v);
             (Lib EnsureDispatch [v], inl x)]
  | Raised e =>
      t = [(Lib get_active_object [], inr e)] \/
      (exists w, t = [(Lib get_active_object [], inl w)] /\
                 e = NameError "win32com") \/
      (exists w, t = [(Lib get_active_object [], inl w);
                      (Lib Dispatch [w], inr e)]) \/
      (exists w d, t = [(Lib get_active_object [], inl w);
                        (Lib Dispatch [w], inl d);
                        (GetAttr d Application, inr e)]) \/
      (exists w d v, t = [(Lib get_active_object [], inl w);
                          (Lib Dispatch [w], inl d);
                          (GetAttr d Application, inl v);
                          (Lib EnsureDispatch [v], inr e)])
  end.

(** The calls by which an application handle is obtained. *)
Definition is_lookup_call (c : call) : bool :=
  match c with
  | Lib get_active_object _ => true
  | Lib Dispatch _ => true
  | Lib EnsureDispatch _ => true
  | GetAttr _ Application => true
  | _ => false
  end.

Definition no_lookup (t : list event) : bool :=
  forallb (fun ev => negb (is_lookup_call (fst ev))) t.

(** What an entry does with the handle once [xl_app] has returned it;
    the synchronous part of [automation_example] takes no handle. *)
Definition entry_body (e : entry) : option (value -> prog) :=
  match e with
  | Callback inv_win32com_menu_test => Some win32com_menu_test_body
  | Callback inv_button_example => Some button_example_body
  | Callback inv_checkbox_example => Some checkbox_example_body
  | Callback inv_scrollbar_example => Some scrollbar_example_body
  | Callback (inv_automation_example _ _ _) => None
  | Scheduled f =>
      Some (update_func_body (cl_address f) (cl_rows f) (cl_cols f) (cl_value f))
  end.

(** The trace and outcome of the synchronous part of [automation_example]. *)
Definition automation_example_post (rows cols : Z) (value_ : data)
    (o : outcome) (s : pystate) (t : list event) : Prop :=
  match o with
  | Returned a =>
      exists cell,
        t = [(Lib xlfCaller [], inl cell); (GetAttr cell Address, inl a)] /\
        pending s = [UpdateFunc a rows cols value_]
  | Raised e =>
      pending s = [] /\
      (t = [(Lib xlfCaller [], inr e)] \/
       exists cell, t = [(Lib xlfCaller [], inl cell);
                         (GetAttr cell Address, inr e)])
  end.

Definition keeps_globals (s0 : pystate)
    (o : outcome) (s : pystate) (t : list event) : Prop :=
  globals s = globals s0.

Definition keeps_pending (s0 : pystate)
    (o : outcome) (s : pystate) (t : list event) : Prop :=
  pending s = pending s0.

Definition writes_once (o : outcome) (s : pystate) (t : list event) : Prop :=
  (List.length (writes t) <= 1)%nat /\
  Forall (fun ev => is_value_write (fst ev) = true) (writes t).

Definition writes_when_returned (o : outcome) (s : pystate) (t : list event) : Prop :=
  returned o = true -> List.length (writes t) = 1%nat.

Definition writes_value (d : data) (o : outcome) (s : pystate) (t : list event) : Prop :=
  returned o = true ->
  exists target r, writes t = [(SetAttr target Value (VData d), inl r)].

Definition looks_up_first (n : nat) (o : outcome) (s : pystate) (t : list event) : Prop :=
  no_lookup (skipn n t) = true.

Definition starts_with_lookup (o : outcome) (s : pystate) (t : list event) : Prop :=
  exists r t', t = (Lib get_active_object [], r) :: t'.

Definition name_error_post (o : outcome) (s : pystate) (t : list event) : Prop :=
  (exists w, t = [(Lib get_active_object [], inl w)] /\
             o = Raised (NameError "win32com")) \/
  (exists e, t = [(Lib get_active_object [], inr e)] /\ o = Raised e).

(** The capability a call-back was registered with, by its name. *)
Definition registered_as (s : pystate) (c : callback) : option capability :=
  option_map (fun r => capability_of (reg_trigger r))
             (find (fun r => String.eqb (reg_function r) (function_name c))
                   (registry s)).

(** A call-back can write to the host when some invocation of it does. *)
Definition can_write (c : callback) : Prop :=
  exists (i : invocation) (h : excel),
    callback_of i = c /\
    writes (trace_of (synchronous (excel_invoke i h)) ++
            async_trace (excel_invoke i h)) <> [].

Definition is_module_object (v : value) : bool :=
  match v with
  | VModule _ | VLogger | VFunction _ => true
  | _ => false
  end.

Arguments py_add_int : simpl never.
Arguments py_eq_int : simpl never.
Arguments float_of_Z : simpl never.
Arguments float_add : simpl never.
Arguments read_range : simpl never.
Arguments write_range : simpl never.
Arguments on_sheet : simpl never.
Arguments bounding : simpl never.
Arguments item : simpl never.

(** The sample workbook with 2^53 in the cell named button_output. *)
Definition sample_big : excel :=
  set_cells sample (write_range A5 (DFloat (float_of_Z (2 ^ 53))) (cells sample)).

(** When the host runs code of the module: while it waits for the call-back
    it invoked (for a worksheet function, during calculation), or later,
    when it runs a function handed to [async_call]. *)
Inductive phase : Type :=
| DuringCall
| AfterCall.

Definition timeline {H : Type} (v : invoked H) : list (phase * event) :=
  map (pair DuringCall) (trace_of (synchronous v)) ++
  map (pair AfterCall) (async_trace v).

(** The property reads a call-back has made by the time it returns:
    [button_example] has read the [Value] of a range; [checkbox_example]
    and [scrollbar_example] have read [ActiveSheet] and [Caller] of the
    application and the [Value] of a control. *)
Definition reads_post (i : invocation)
    (o : outcome) (s : pystate) (t : list event) : Prop :=
  returned o = true ->
  match i with
  | inv_button_example =>
      exists range v, In (GetAttr range Value, inl v) t
  | inv_checkbox_example | inv_scrollbar_example =>
      exists xl sheet caller_ control v,
        In (GetAttr xl ActiveSheet, inl sheet) t /\
        In (GetAttr xl Caller, inl caller_) t /\
        In (GetAttr control Value, inl v) t
  | _ => True
  end.

(** The sample workbook without the name checkbox_output. *)
Definition sample_unnamed : excel :=
  Excel true 1048576 16384 sample_cells
        (fun text => if String.eqb text "checkbox_output" then None
                     else sample_resolve text)
        sample_address (Rect 1 1 1 1) sample_check_box sample_scroll_bar
        (CallerControl "Check Box 1") [].

(** ** More shapes of traces *)

(** The writes the host accepted. *)
Definition accepted_writes (t : list event) : list event :=
  filter (fun ev => is_write (fst ev) &&
                    match snd ev with inl _ => true | inr _ => false end) t.

Definition nothing_written_when_raised
    (o : outcome) (s : pystate) (t : list event) : Prop :=
  returned o = false -> accepted_writes t = [].

(** What [button_example] has done when it returns: it read [Value] of
    some object and wrote that value plus 1 to the same object. *)
Definition button_example_post (o : outcome) (s : pystate) (t : list event) : Prop :=
  returned o = true ->
  exists range v w r,
    In (GetAttr range Value, inl v) t /\
    py_add_int v 1 = inl w /\
    writes t = [(SetAttr range Value w, inl r)].

(** What [checkbox_example] has done when it returns: it read [Value] of
    the object that [CheckBoxes(xl.Caller)] gave and wrote one of its two
    texts to the object that [Range("checkbox_output")] gave. *)
Definition checkbox_example_post (o : outcome) (s : pystate) (t : list event) : Prop :=
  returned o = true ->
  exists CheckBoxes_ caller_ check_box v Range_ range r,
    In (Call CheckBoxes_ [caller_], inl check_box) t /\
    In (GetAttr check_box Value, inl v) t /\
    In (Call Range_ [str "checkbox_output"], inl range) t /\
    writes t = [(SetAttr range Value
                   (str (if py_eq_int v 1 then "CHECKED!" else "Click the check box")),
                 inl r)].

Definition the_registrations : list registration :=
  [Registered (Menu "win32com test" "More Examples") "win32com_menu_test";
   Registered Macro "button_example";
   Registered Macro "checkbox_example";
   Registered Macro "scrollbar_example";
   Registered (Function "int rows, int cols, var value" true) "automation_example"].

Definition the_warnings : list string :=
  ["*** win32com.client could not be imported          ***";
   "*** some of the automation examples will not work  ***";
   "*** to fix this, install the pywin32 extensions.   ***"].

(** How an import of the module can end, whatever the host answers to the
    import statements. *)
Definition module_body_post (o : outcome) (s : pystate) (t : list event) : Prop :=
  match o with
  | Returned _ =>
      registry s = the_registrations /\
      ((log s = [] /\
        lookup "win32com" (globals s) = Some (VModule "win32com") /\
        exists m, In (Import "win32com.client", inl m) t) \/
       (log s = the_warnings /\
        lookup "win32com" (globals s) = None /\
        exists name, In (Import "win32com.client", inr (ImportError name)) t))
  | Raised e =>
      registry s = [] /\ log s = [] /\
      exists c, In (c, inr e) t /\
                (c = Import "win32com.client" -> is_ImportError e = false)
  end.

(** A host like the reference host, except that it refuses every alert. *)
Definition excel_without_alerts (c : call) (h : excel) : response * excel :=
  match c with
  | Lib xlcAlert _ => (inr (com_error DISP_E_EXCEPTION), h)
  | _ => excel_serve c h
  end.

Definition alert_failure_post (o : outcome) (s : pystate) (t : list event) : Prop :=
  forall args e,
    In (Lib xlcAlert args, inr e) t ->
    o = Raised e /\
    exists selection_ r,
      accepted_writes t = [(SetAttr selection_ Value (str "Hello!"), inl r)].

(** The sample workbook while cell B1048576, in the last row, is calculated. *)
Definition B1048576 : rect := Rect 1048576 2 1 1.

Definition sample_last_row : excel :=
  Excel true 1048576 16384 sample_cells
        (fun text => if String.eqb text "$B$1048576" then Some B1048576
                     else sample_resolve text)
        (fun r => if rect_eqb r B1048576 then "$B$1048576" else sample_address r)
        (Rect 1 1 1 1) sample_check_box sample_scroll_bar
        (CallerCell B1048576) [].

(** * Proofs *)

Section AnyHost.

Variable H : Type.
Variable serve : call -> H -> response * H.

Lemma wp_sound (p : prog) :
  forall s t post (h : H),
    wp p s t post ->
    post (outcome_of (run serve p s h)) (py_of (run serve p s h))
         (t ++ trace_of (run serve p s h)).
Proof.
  induction p as [v|e|c k IH|op k IH|body IHb catches handler IHh k IHk];
    intros s t post h Hwp; cbn in *.
  - rewrite app_nil_r; exact Hwp.
  - rewrite app_nil_r; exact Hwp.
  - destruct Hwp as [Hv He].
    destruct (serve c h) as [[v|e] h']; cbn.
    + specialize (IH v s (t ++ [(c, inl v)]) post h' (Hv v)).
      rewrite <- app_assoc in IH. exact IH.
    + apply He.
  - destruct (step_py op s) as [[v|e] s']; cbn.
    + apply IH; exact Hwp.
    + rewrite app_nil_r; exact Hwp.
  - specialize (IHb s t _ h Hwp).
    destruct (run serve body s h) as [ob sb hb tb]; cbn in *.
    destruct ob as [v|e]; cbn.
    + rewrite app_assoc. apply IHk. exact IHb.
    + destruct (catches e); [|exact IHb].
      specialize (IHh _ _ _ hb IHb).
      destruct (run serve handler sb hb) as [oh sh hh th]; cbn in *.
      destruct oh as [v2|e2]; cbn.
      * rewrite (app_assoc t), (app_assoc t tb th). apply IHk. exact IHh.
      * rewrite app_assoc. exact IHh.
Qed.

Lemma handler_free_propagates (p : prog) :
  handler_free p ->
  forall s (h : H) c e,
    In (c, inr e) (trace_of (run serve p s h)) ->
    outcome_of (run serve p s h) = Raised e /\
    exists t, trace_of (run serve p s h) = t ++ [(c, inr e)].
Proof.
  induction p as [v|e0|c0 k IH|op k IH|body IHb catches handler IHh k IHk];
    cbn; intros Hfree s h c e Hin; try contradiction.
  - destruct (serve c0 h) as [[v|e1] h']; cbn in *.
    + destruct Hin as [Heq|Hin]; [discriminate|].
      destruct (IH v (Hfree v) s h' c e Hin) as [Ho [t Ht]].
      split; [exact Ho|]. exists ((c0, inl v) :: t). rewrite Ht. reflexivity.
    + destruct Hin as [Heq|[]]. inversion Heq; subst.
      split; [reflexivity|]. exists []. reflexivity.
  - destruct (step_py op s) as [[v|e1] s']; cbn in *.
    + apply IH; auto.
    + contradiction.
Qed.

Lemma wp_run (p : prog) (s : pystate) (h : H)
    (post : outcome -> pystate -> list event -> Prop) :
  wp p s [] post ->
  post (outcome_of (run serve p s h)) (py_of (run serve p s h))
       (trace_of (run serve p s h)).
Proof. intros Hwp. exact (wp_sound p s [] post h Hwp). Qed.

(** Every event of a trace is an answer of the host. *)
Lemma trace_served (p : prog) :
  forall s (h : H) c r,
    In (c, r) (trace_of (run serve p s h)) ->
    exists h1, fst (serve c h1) = r.
Proof.
  induction p as [v|e0|c0 k IH|op k IH|body IHb catches handler IHh k IHk];
    cbn; intros s h c r Hin; try contradiction.
  - destruct (serve c0 h) as [[v|e1] h'] eqn:Hs; cbn in *.
    + destruct Hin as [Heq|Hin].
      * inversion Heq; subst. exists h. rewrite Hs. reflexivity.
      * eapply IH; eassumption.
    + destruct Hin as [Heq|[]]. inversion Heq; subst.
      exists h. rewrite Hs. reflexivity.
  - destruct (step_py op s) as [[v|e1] s']; cbn in *.
    + eapply IH; eassumption.
    + contradiction.
  - destruct (run serve body s h) as [ob sb hb tb] eqn:Hb; cbn in *.
    assert (Hbody : forall c r, In (c, r) tb -> exists h1, fst (serve c h1) = r).
    { intros c' r' Hin'. apply (IHb s h c' r'). rewrite Hb. exact Hin'. }
    destruct ob as [v|e]; cbn in *.
    + apply in_app_or in Hin. destruct Hin as [Hin|Hin]; [auto|].
      eapply IHk; eassumption.
    + destruct (catches e); cbn in *; [|auto].
      destruct (run serve handler sb hb) as [oh sh hh th] eqn:Hh; cbn in *.
      assert (Hhandler : forall c r, In (c, r) th -> exists h1, fst (serve c h1) = r).
      { intros c' r' Hin'. apply (IHh sb hb c' r'). rewrite Hh. exact Hin'. }
      destruct oh as [v2|e2]; cbn in *.
      * apply in_app_or in Hin. destruct Hin as [Hin|Hin].
        -- apply in_app_or in Hin. destruct Hin; auto.
        -- eapply IHk; eassumption.
      * apply in_app_or in Hin. destruct Hin; auto.
Qed.

End AnyHost.

Ltac wp_paths :=
  repeat (cbn;
          match goal with
          | |- _ /\ _ => split
          | |- forall _, _ => intro
          | Hl : lookup ?n ?g = _ |- context [lookup ?n ?g] => rewrite Hl
          | |- context [lookup ?n ?g] => destruct (lookup n g) eqn:?
          | |- context [if ?b then _ else _] => destruct b eqn:?
          | |- context [lift ?r] => destruct r as [?|?]
          end).

Ltac each_entry e :=
  destruct e as [[| | | |?rows ?cols ?value_]|[?a ?r ?c ?v]].

Ltac walk :=
  repeat (cbn; intros;
          match goal with
          | |- True => exact I
          | |- context [if ?b then _ else _] => destruct b
          | |- context [lift ?r] => destruct r as [?|?]
          end).

Lemma entries_handler_free (e : entry) : handler_free (entry_code e).
Proof.
  destruct e as [[| | | |rows cols value_]|[a r c v]]; walk.
Qed.

(** C3.  Whatever the host is, an exception it raises while answering a call
    of a call-back (or of the update function a call-back scheduled) is the
    outcome of that call-back, unchanged, and the failed call is the last one
    the call-back makes; no call-back contains a [try] statement. *)
Theorem host_exception_propagates (H : Type) (serve : call -> H -> response * H)
    (e : entry) (s : pystate) (h : H) (c : call) (x : exn) :
  In (c, inr x) (trace_of (run serve (entry_code e) s h)) ->
  handler_free (entry_code e) /\
  outcome_of (run serve (entry_code e) s h) = Raised x /\
  exists t, trace_of (run serve (entry_code e) s h) = t ++ [(c, inr x)].
Proof.
  intros Hin. split; [apply entries_handler_free|].
  apply handler_free_propagates; [apply entries_handler_free|exact Hin].
Qed.

(** The scroll-bar macro run from a check box: [ScrollBars("Check Box 1")]
    fails in the host and the macro ends with that COM error. *)
Lemma host_exception_propagates_witness :
  In (Call (VObj (BoundMethod CWorksheet ScrollBars)) [str "Check Box 1"],
      inr (com_error DISP_E_EXCEPTION))
     (trace_of (run excel_serve (entry_code (Callback inv_scrollbar_example))
                    (py_of (imported sample)) sample)) /\
  outcome_of (run excel_serve (entry_code (Callback inv_scrollbar_example))
                  (py_of (imported sample)) sample)
  = Raised (com_error DISP_E_EXCEPTION).
Proof.
  assert (Hin : In (Call (VObj (BoundMethod CWorksheet ScrollBars)) [str "Check Box 1"],
      inr (com_error DISP_E_EXCEPTION))
     (trace_of (run excel_serve (entry_code (Callback inv_scrollbar_example))
                    (py_of (imported sample)) sample))).
  { vm_compute. do 8 right. left. reflexivity. }
  split; [exact Hin|].
  exact (proj1 (proj2 (host_exception_propagates excel excel_serve _ _ _ _ _ Hin))).
Defined.

(** ** Call-backs against any host *)

Section AnyHostCallbacks.

Variable H : Type.
Variable serve : call -> H -> response * H.

Lemma entry_keeps_globals (e : entry) (s : pystate) (h : H) :
  globals (py_of (run serve (entry_code e) s h)) = globals s.
Proof.
  apply (wp_run H serve (entry_code e) s h (keeps_globals s)).
  unfold keeps_globals. each_entry e; wp_paths; reflexivity.
Qed.

Lemma entry_writes_once (e : entry) (s : pystate) (h : H) :
  (List.length (writes (trace_of (run serve (entry_code e) s h))) <= 1)%nat /\
  Forall (fun ev => is_value_write (fst ev) = true)
         (writes (trace_of (run serve (entry_code e) s h))).
Proof.
  apply (wp_run H serve (entry_code e) s h writes_once).
  unfold writes_once. each_entry e; wp_paths; try lia; repeat constructor.
Qed.

Lemma entry_writes_when_returned (e : entry) (s : pystate) (h : H) :
  entry_body e <> None ->
  returned (outcome_of (run serve (entry_code e) s h)) = true ->
  List.length (writes (trace_of (run serve (entry_code e) s h))) = 1%nat.
Proof.
  intros Hb.
  apply (wp_run H serve (entry_code e) s h writes_when_returned).
  unfold writes_when_returned.
  each_entry e; try (exfalso; apply Hb; reflexivity); wp_paths;
    congruence.
Qed.

Lemma entry_keeps_pending (e : entry) (s : pystate) (h : H) :
  entry_body e <> None ->
  pending (py_of (run serve (entry_code e) s h)) = pending s.
Proof.
  intros Hb.
  apply (wp_run H serve (entry_code e) s h (keeps_pending s)).
  unfold keeps_pending.
  each_entry e; try (exfalso; apply Hb; reflexivity); wp_paths; reflexivity.
Qed.

Lemma entry_looks_up_first (e : entry) (s : pystate) (h : H) :
  no_lookup (skipn (match entry_body e with Some _ => 4 | None => 0 end)
                   (trace_of (run serve (entry_code e) s h))) = true.
Proof.
  each_entry e; cbn [entry_body].
  1-4,6: match goal with
         | |- no_lookup (skipn _ (trace_of (run _ ?p _ _))) = true =>
             apply (wp_run H serve p s h (looks_up_first 4))
         end; unfold looks_up_first; wp_paths; reflexivity.
  apply (wp_run H serve _ s h (looks_up_first 0)).
  unfold looks_up_first; wp_paths; reflexivity.
Qed.

Lemma entry_starts_with_lookup (e : entry) (s : pystate) (h : H) :
  entry_body e <> None ->
  exists r t',
    trace_of (run serve (entry_code e) s h) = (Lib get_active_object [], r) :: t'.
Proof.
  intros Hb.
  apply (wp_run H serve (entry_code e) s h starts_with_lookup).
  unfold starts_with_lookup.
  each_entry e; try (exfalso; apply Hb; reflexivity); wp_paths;
    eexists; eexists; reflexivity.
Qed.

Lemma xl_app_shape (s : pystate) (h : H) :
  xl_app_post (outcome_of (run serve xl_app s h)) (py_of (run serve xl_app s h))
              (trace_of (run serve xl_app s h)).
Proof.
  apply wp_run. cbn.
  split; [intro|intro; left; reflexivity].
  destruct (lookup "win32com" (globals s)) eqn:Hl; cbn.
  - split; [intro|intro; right; right; left; eexists; reflexivity].
    split; [intro; rewrite Hl; cbn|intro; right; right; right; left; do 2 eexists; reflexivity].
    split; [intro; cbn|intro; right; right; right; right; do 3 eexists; reflexivity].
    do 3 eexists; reflexivity.
  - right; left. eexists; split; reflexivity.
Qed.

Lemma scheduled_writes_value (f : closure) (s : pystate) (h : H) :
  returned (outcome_of (run serve (closure_code f) s h)) = true ->
  exists target r,
    writes (trace_of (run serve (closure_code f) s h)) =
    [(SetAttr target Value (VData (cl_value f)), inl r)].
Proof.
  apply (wp_run H serve (closure_code f) s h (writes_value (cl_value f))).
  unfold writes_value. destruct f as [a r c v]. wp_paths; try congruence.
  eexists; eexists; reflexivity.
Qed.

Lemma automation_example_sync (rows cols : Z) (value_ : data) (s : pystate) (h : H) :
  automation_example_post rows cols value_
    (outcome_of (run serve (automation_example rows cols value_) (take_pending s) h))
    (py_of (run serve (automation_example rows cols value_) (take_pending s) h))
    (trace_of (run serve (automation_example rows cols value_) (take_pending s) h)).
Proof.
  apply wp_run. cbn. split.
  - intros cell. split.
    + intros a. eexists. split; reflexivity.
    + intros e. split; [reflexivity|]. right. eexists; reflexivity.
  - intros e. split; [reflexivity|]. left; reflexivity.
Qed.

Lemma name_error_when_unbound (e : entry) (s : pystate) (h : H) :
  entry_body e <> None ->
  lookup "win32com" (globals s) = None ->
  name_error_post (outcome_of (run serve (entry_code e) s h))
                  (py_of (run serve (entry_code e) s h))
                  (trace_of (run serve (entry_code e) s h)).
Proof.
  intros Hb Hl.
  apply wp_run. unfold name_error_post.
  each_entry e; try (exfalso; apply Hb; reflexivity); cbn; rewrite Hl; cbn;
    (split; [intros w; left; eexists; split; reflexivity
            |intros x; right; eexists; split; reflexivity]).
Qed.

End AnyHostCallbacks.

Lemma xl_app_on_excel (s : pystate) (x : excel) (m : value) :
  lookup "win32com" (globals s) = Some m ->
  run excel_serve xl_app s x =
  Result (Returned (wrap CApplication)) s x
    [(Lib get_active_object [], inl (VObj (PyIDispatch CWindow)));
     (Lib Dispatch [VObj (PyIDispatch CWindow)], inl (wrap CWindow));
     (GetAttr (wrap CWindow) Application, inl (wrap CApplication));
     (Lib EnsureDispatch [wrap CApplication], inl (wrap CApplication))].
Proof.
  intros Hm. cbn. rewrite Hm. cbn. rewrite Hm. cbn. reflexivity.
Qed.

(** ** The worksheet function and its deferred write *)

Section Deferral.

Variable H : Type.
Variable serve : call -> H -> response * H.

Lemma writes_app (a b : list event) : writes (a ++ b) = writes a ++ writes b.
Proof. unfold writes. apply filter_app. Qed.

Lemma automation_example_invoked (rows cols : Z) (value_ : data)
    (s : pystate) (h : H) :
  let v := invoke_callback serve (inv_automation_example rows cols value_) s h in
  writes (trace_of (synchronous v)) = [] /\
  automation_example_post rows cols value_ (outcome_of (synchronous v))
    (py_of (synchronous v)) (trace_of (synchronous v)) /\
  asynchronous v =
    match outcome_of (synchronous v) with
    | Returned a =>
        [run serve (update_func a rows cols value_)
             (take_pending (py_of (synchronous v))) (host_of (synchronous v))]
    | Raised _ => []
    end /\
  Forall (fun x =>
            (List.length (writes (trace_of x)) <= 1)%nat /\
            (returned (outcome_of x) = true ->
             exists target r,
               writes (trace_of x) = [(SetAttr target Value (VData value_), inl r)]))
         (asynchronous v).
Proof.
  intros v. subst v. unfold invoke_callback. cbn [synchronous asynchronous code].
  pose proof (automation_example_sync H serve rows cols value_ s h) as Hs.
  destruct (run serve (automation_example rows cols value_) (take_pending s) h)
    as [o s' h' t]; cbn [outcome_of py_of host_of trace_of] in *.
  destruct o as [a|e]; cbn in Hs.
  - destruct Hs as [cell [Ht Hp]].
    split; [rewrite Ht; reflexivity|].
    split; [exists cell; split; assumption|].
    rewrite Hp. cbn [run_pending closure_code cl_address cl_rows cl_cols cl_value].
    split; [reflexivity|].
    constructor; [|constructor]. split.
    + apply (entry_writes_once H serve (Scheduled (UpdateFunc a rows cols value_))).
    + apply (scheduled_writes_value H serve (UpdateFunc a rows cols value_)).
  - destruct Hs as [Hp Ht].
    split; [destruct Ht as [Ht|[cell Ht]]; rewrite Ht; reflexivity|].
    split; [split; assumption|].
    rewrite Hp. cbn [run_pending].
    split; [reflexivity|constructor].
Qed.

(** C1.  Whatever the host is, an invocation of [automation_example] makes
    no write while the host waits for it: its synchronous part calls
    [xlfCaller], reads the caller's [address], hands [update_func] to
    [async_call] and returns the address.  The only function run afterwards
    is that [update_func]; it writes at most once, and when it returns it
    has written [value] exactly once.  So every write on the invocation's
    timeline lies after the call. *)
Theorem automation_example_defers_its_write (rows cols : Z) (value_ : data)
    (s : pystate) (h : H) :
  let v := invoke_callback serve (inv_automation_example rows cols value_) s h in
  writes (trace_of (synchronous v)) = [] /\
  automation_example_post rows cols value_ (outcome_of (synchronous v))
    (py_of (synchronous v)) (trace_of (synchronous v)) /\
  asynchronous v =
    match outcome_of (synchronous v) with
    | Returned a =>
        [run serve (update_func a rows cols value_)
             (take_pending (py_of (synchronous v))) (host_of (synchronous v))]
    | Raised _ => []
    end /\
  Forall (fun x =>
            (List.length (writes (trace_of x)) <= 1)%nat /\
            (returned (outcome_of x) = true ->
             exists target r,
               writes (trace_of x) = [(SetAttr target Value (VData value_), inl r)]))
         (asynchronous v) /\
  (forall (ph : phase) (ev : event),
      In (ph, ev) (timeline v) -> is_write (fst ev) = true -> ph = AfterCall).
Proof.
  cbn zeta.
  destruct (automation_example_invoked rows cols value_ s h) as [Hw [Hpost [Ha Hf]]].
  repeat (split; [assumption|]).
  intros ph ev Hin Hwrite. unfold timeline in Hin.
  apply in_app_or in Hin. destruct Hin as [Hin|Hin].
  - exfalso. apply in_map_iff in Hin. destruct Hin as [ev' [Heq Hin]].
    inversion Heq; subst ev' ph.
    assert (Hin' : In ev (writes (trace_of (synchronous
                     (invoke_callback serve (inv_automation_example rows cols value_) s h))))).
    { unfold writes. apply filter_In. split; assumption. }
    rewrite Hw in Hin'. contradiction.
  - apply in_map_iff in Hin. destruct Hin as [ev' [Heq _]].
    inversion Heq. reflexivity.
Qed.

Lemma command_schedules_nothing (i : invocation) (s : pystate) (h : H) :
  entry_body (Callback i) <> None ->
  asynchronous (invoke_callback serve i s h) = [].
Proof.
  intros Hb. unfold invoke_callback. cbn [asynchronous].
  change (code i) with (entry_code (Callback i)).
  rewrite (entry_keeps_pending H serve (Callback i) (take_pending s) h Hb).
  reflexivity.
Qed.

Lemma callback_reads (i : invocation) (s : pystate) (h : H) :
  reads_post i (outcome_of (run serve (code i) s h)) (py_of (run serve (code i) s h))
             (trace_of (run serve (code i) s h)).
Proof.
  apply wp_run. unfold reads_post.
  destruct i as [| | | |rows cols value_]; wp_paths;
    try discriminate; try exact I;
    repeat eexists; cbn; repeat (first [left; reflexivity | right]).
Qed.

(** C2, as amended.  Whatever the host is, an invocation of a call-back
    writes at most one property in all, a [Value].  The menu function and
    the three macros start with [xl_app], schedule nothing and, when they
    return, have written exactly once.  [automation_example] writes nothing
    itself; when it returns it has scheduled exactly one function, which is
    [xl_app] followed by the body of [update_func], begins with the call of
    [get_active_object] and, when it returns, has written exactly once.
    The reads are not limited to one: when it returns, [button_example]
    has read the [Value] of a range, and [checkbox_example] and
    [scrollbar_example] have read [ActiveSheet], [Caller] and the [Value]
    of a control. *)
Theorem callbacks_write_at_most_once (i : invocation) (s : pystate) (h : H) :
  let v := invoke_callback serve i s h in
  (List.length (writes (trace_of (synchronous v) ++ async_trace v)) <= 1)%nat /\
  Forall (fun ev => is_value_write (fst ev) = true)
         (writes (trace_of (synchronous v) ++ async_trace v)) /\
  match entry_body (Callback i), i with
  | Some body, _ =>
      code i = (xl <- xl_app ;; body xl) /\
      asynchronous v = [] /\
      (returned (outcome_of (synchronous v)) = true ->
       List.length (writes (trace_of (synchronous v))) = 1%nat)
  | None, inv_automation_example rows cols value_ =>
      writes (trace_of (synchronous v)) = [] /\
      asynchronous v =
        match outcome_of (synchronous v) with
        | Returned a =>
            [run serve (xl <- xl_app ;; update_func_body a rows cols value_ xl)
                 (take_pending (py_of (synchronous v))) (host_of (synchronous v))]
        | Raised _ => []
        end /\
      Forall (fun x =>
                (exists r t', trace_of x = (Lib get_active_object [], r) :: t') /\
                (returned (outcome_of x) = true ->
                 List.length (writes (trace_of x)) = 1%nat))
             (asynchronous v)
  | None, _ => False
  end /\
  reads_post i (outcome_of (synchronous v)) (py_of (synchronous v))
             (trace_of (synchronous v)).
Proof.
  cbn zeta.
  split; [|split; [|split]].
  4: { unfold invoke_callback. cbn [synchronous]. apply callback_reads. }
  all: pose proof (entry_writes_once H serve (Callback i) (take_pending s) h) as [Hn Hv].
  all: destruct (entry_body (Callback i)) as [body|] eqn:Hb.
  1,3,5: assert (Hsome : entry_body (Callback i) <> None) by (rewrite Hb; discriminate);
         pose proof (command_schedules_nothing i s h Hsome) as Hnone;
         pose proof (entry_writes_when_returned H serve (Callback i)
                       (take_pending s) h Hsome) as Hr;
         unfold async_trace; rewrite ?Hnone; cbn [flat_map]; rewrite ?app_nil_r;
         try assumption.
  1: { repeat split; try assumption.
       destruct i; cbn in Hb; inversion Hb; reflexivity. }
  all: destruct i as [| | | |rows cols value_]; try discriminate Hb.
  all: clear Hn Hv;
       destruct (automation_example_invoked rows cols value_ s h) as [Hw [_ [Ha Hf]]];
       remember (invoke_callback serve (inv_automation_example rows cols value_) s h)
         as v eqn:Ev.
  - rewrite writes_app, Hw. cbn [app]. unfold async_trace.
    destruct (outcome_of (synchronous v)) as [a|e]; rewrite Ha in *; cbn [flat_map].
    + rewrite app_nil_r. apply Forall_inv in Hf. destruct Hf as [Hn _]. exact Hn.
    + cbn. lia.
  - rewrite writes_app, Hw. cbn [app]. unfold async_trace.
    destruct (outcome_of (synchronous v)) as [a|e]; rewrite Ha in *; cbn [flat_map].
    + rewrite app_nil_r.
      exact (proj2 (entry_writes_once H serve
                      (Scheduled (UpdateFunc a rows cols value_))
                      (take_pending (py_of (synchronous v)))
                      (host_of (synchronous v)))).
    + constructor.
  - split; [exact Hw|]. split; [exact Ha|].
    destruct (outcome_of (synchronous v)) as [a|e]; rewrite Ha in *; [|constructor].
    apply Forall_inv in Hf. destruct Hf as [_ Hx].
    constructor; [|constructor]. split.
    + apply (entry_starts_with_lookup H serve
               (Scheduled (UpdateFunc a rows cols value_))). discriminate.
    + intros Hr. destruct (Hx Hr) as [target [r Ht]]. rewrite Ht. reflexivity.
Qed.

(** C5.  Whatever the host is, [xl_app] asks pyxll for the active object,
    wraps that object with [Dispatch], reads the wrapper's [Application],
    calls [EnsureDispatch] on it and returns it; it calls [Dispatch] on no
    other argument.  Every entry that uses a handle is [xl_app] followed by
    a body that makes no lookup of its own; the synchronous part of
    [automation_example] makes none at all.  On the reference host [xl_app]
    returns the Dispatch wrapper of the Application object and changes
    nothing. *)
Theorem xl_app_is_the_single_lookup (s : pystate) (h : H) :
  xl_app_post (outcome_of (run serve xl_app s h)) (py_of (run serve xl_app s h))
              (trace_of (run serve xl_app s h)) /\
  (forall e : entry,
      match entry_body e with
      | Some body =>
          entry_code e = (xl <- xl_app ;; body xl) /\
          no_lookup (skipn 4 (trace_of (run serve (entry_code e) s h))) = true
      | None => no_lookup (trace_of (run serve (entry_code e) s h)) = true
      end) /\
  (forall (x : excel) (m : value),
      lookup "win32com" (globals s) = Some m ->
      outcome_of (run excel_serve xl_app s x) = Returned (VObj (CDispatch CApplication)) /\
      host_of (run excel_serve xl_app s x) = x).
Proof.
  split; [apply xl_app_shape|]. split.
  - intros e. pose proof (entry_looks_up_first H serve e s h) as Hl.
    each_entry e; cbn [entry_body] in *; try (split; [reflexivity|]); exact Hl.
  - intros x m Hm. rewrite (xl_app_on_excel s x m Hm). split; reflexivity.
Qed.

End Deferral.

(** ** Importing the module into the reference host *)

Lemma imported_installed (h : excel) :
  pywin32_installed h = true ->
  imported h =
  Result (Returned None_)
    (PyState
       [("automation_example", VFunction "automation_example");
        ("scrollbar_example", VFunction "scrollbar_example");
        ("checkbox_example", VFunction "checkbox_example");
        ("button_example", VFunction "button_example");
        ("win32com_menu_test", VFunction "win32com_menu_test");
        ("xl_app", VFunction "xl_app");
        ("win32com", VModule "win32com"); ("_log", VLogger);
        ("logging", VModule "logging");
        ("xl_macro", VFunction "pyxll.xl_macro");
        ("xl_func", VFunction "pyxll.xl_func");
        ("xl_menu", VFunction "pyxll.xl_menu");
        ("pyxll", VModule "pyxll")]
       []
       [Registered (Menu "win32com test" "More Examples") "win32com_menu_test";
        Registered Macro "button_example";
        Registered Macro "checkbox_example";
        Registered Macro "scrollbar_example";
        Registered (Function "int rows, int cols, var value" true) "automation_example"]
       [])
    h
    [(Import "pyxll", inl (VModule "pyxll"));
     (Import "pyxll", inl (VModule "pyxll"));
     (Import "logging", inl (VModule "logging"));
     (Import "win32com.client", inl (VModule "win32com.client"))].
Proof.
  intros Hi. unfold imported. cbn. rewrite Hi. cbn. reflexivity.
Qed.

Lemma imported_missing (h : excel) :
  pywin32_installed h = false ->
  imported h =
  Result (Returned None_)
    (PyState
       [("automation_example", VFunction "automation_example");
        ("scrollbar_example", VFunction "scrollbar_example");
        ("checkbox_example", VFunction "checkbox_example");
        ("button_example", VFunction "button_example");
        ("win32com_menu_test", VFunction "win32com_menu_test");
        ("xl_app", VFunction "xl_app");
        ("_log", VLogger);
        ("logging", VModule "logging");
        ("xl_macro", VFunction "pyxll.xl_macro");
        ("xl_func", VFunction "pyxll.xl_func");
        ("xl_menu", VFunction "pyxll.xl_menu");
        ("pyxll", VModule "pyxll")]
       ["*** win32com.client could not be imported          ***";
        "*** some of the automation examples will not work  ***";
        "*** to fix this, install the pywin32 extensions.   ***"]
       [Registered (Menu "win32com test" "More Examples") "win32com_menu_test";
        Registered Macro "button_example";
        Registered Macro "checkbox_example";
        Registered Macro "scrollbar_example";
        Registered (Function "int rows, int cols, var value" true) "automation_example"]
       [])
    h
    [(Import "pyxll", inl (VModule "pyxll"));
     (Import "pyxll", inl (VModule "pyxll"));
     (Import "logging", inl (VModule "logging"));
     (Import "win32com.client", inr (ImportError "win32com.client"))].
Proof.
  intros Hi. unfold imported. cbn. rewrite Hi. cbn. reflexivity.
Qed.

Lemma imported_registry (h : excel) :
  registry (py_of (imported h)) =
  [Registered (Menu "win32com test" "More Examples") "win32com_menu_test";
   Registered Macro "button_example";
   Registered Macro "checkbox_example";
   Registered Macro "scrollbar_example";
   Registered (Function "int rows, int cols, var value" true) "automation_example"].
Proof.
  destruct (pywin32_installed h) eqn:Hi.
  - rewrite (imported_installed h Hi). reflexivity.
  - rewrite (imported_missing h Hi). reflexivity.
Qed.

(** C2, as stated, fails: on the sample workbook [button_example] reads
    the [Value] of the range and then writes it, two property accesses
    after the one that [xl_app] makes. *)
Lemma button_example_reads_then_writes :
  map fst (property_accesses
             (trace_of (synchronous (excel_invoke inv_button_example sample)))) =
  [GetAttr (wrap CWindow) Application;
   GetAttr (wrap (CRange A5)) Value;
   SetAttr (wrap (CRange A5)) Value (VData (DFloat (float_of_Z 42)))] /\
  map fst (property_accesses
             (trace_of (run excel_serve xl_app (py_of (imported sample)) sample))) =
  [GetAttr (wrap CWindow) Application] /\
  ~ (List.length (property_accesses
                    (trace_of (synchronous (excel_invoke inv_button_example sample))))
     - List.length (property_accesses
                      (trace_of (run excel_serve xl_app (py_of (imported sample)) sample)))
     <= 1)%nat.
Proof.
  split; [vm_compute; reflexivity|]. split; [vm_compute; reflexivity|].
  vm_compute. intros Hle. inversion Hle as [|n Hle']. inversion Hle'.
Qed.

(** ** Registrations *)

Lemma every_callback_can_write (c : callback) : can_write c.
Proof.
  destruct c.
  - exists inv_win32com_menu_test, sample. split; [reflexivity|]. vm_compute. discriminate.
  - exists inv_button_example, sample. split; [reflexivity|]. vm_compute. discriminate.
  - exists inv_checkbox_example, sample. split; [reflexivity|]. vm_compute. discriminate.
  - exists inv_scrollbar_example, (with_caller sample (CallerControl "Scroll Bar 1")).
    split; [reflexivity|]. vm_compute. discriminate.
  - exists (inv_automation_example 1 1 (DStr "x")), sample_calc.
    split; [reflexivity|]. vm_compute. discriminate.
Qed.

(** C4.  Whatever the host's state when the module is imported, the five
    functions are registered: the menu function and the three macros as
    commands, [automation_example] as a worksheet function with
    [macro=True].  Every call-back can write to the document, and each is
    registered with a capability that allows it; none is registered as a
    plain worksheet function. *)
Theorem registrations_carry_capability (h : excel) :
  registry (py_of (imported h)) =
  [Registered (Menu "win32com test" "More Examples") "win32com_menu_test";
   Registered Macro "button_example";
   Registered Macro "checkbox_example";
   Registered Macro "scrollbar_example";
   Registered (Function "int rows, int cols, var value" true) "automation_example"] /\
  registered_as (py_of (imported h)) cb_automation_example = Some MacroSheetEquivalent /\
  (forall c, c <> cb_automation_example ->
             registered_as (py_of (imported h)) c = Some Command) /\
  (forall c, can_write c) /\
  (forall c, can_write c ->
             exists cap, registered_as (py_of (imported h)) c = Some cap /\
                         may_change_documents cap = true) /\
  (forall r, In r (registry (py_of (imported h))) ->
             capability_of (reg_trigger r) <> WorksheetFunction).
Proof.
  unfold registered_as. rewrite (imported_registry h).
  split; [reflexivity|]. split; [reflexivity|].
  split; [intros c Hc; destruct c; try reflexivity; contradiction|].
  split; [exact every_callback_can_write|].
  split.
  - intros c _. destruct c; eexists; split; reflexivity.
  - intros r Hr. cbn in Hr.
    repeat (destruct Hr as [Hr|Hr]; [subst r; cbn; discriminate|]).
    contradiction.
Qed.

(** ** A machine without the pywin32 extensions *)

(** C7.  When [import win32com.client] raises ImportError, importing the
    module still returns: the three warnings are logged, the same five
    registrations are made as when the import succeeds, and the name
    [win32com] stays unbound.  From then on [xl_app], and with it every
    entry that uses a handle, raises NameError right after
    [pyxll.get_active_object()], whatever the state of the host. *)
Theorem import_survives_missing_pywin32 (h : excel) :
  pywin32_installed h = false ->
  outcome_of (imported h) = Returned None_ /\
  In (Import "win32com.client", inr (ImportError "win32com.client"))
     (trace_of (imported h)) /\
  log (py_of (imported h)) =
    ["*** win32com.client could not be imported          ***";
     "*** some of the automation examples will not work  ***";
     "*** to fix this, install the pywin32 extensions.   ***"] /\
  registry (py_of (imported h)) = registry (py_of (imported (with_pywin32 h true))) /\
  List.length (registry (py_of (imported h))) = 5%nat /\
  lookup "win32com" (globals (py_of (imported h))) = None /\
  (forall x : excel,
      outcome_of (run excel_serve xl_app (py_of (imported h)) x)
      = Raised (NameError "win32com") /\
      forall e : entry,
        entry_body e <> None ->
        outcome_of (run excel_serve (entry_code e) (py_of (imported h)) x)
        = Raised (NameError "win32com") /\
        trace_of (run excel_serve (entry_code e) (py_of (imported h)) x)
        = [(Lib get_active_object [], inl (VObj (PyIDispatch CWindow)))]).
Proof.
  intros Hi.
  rewrite (imported_registry h), (imported_registry (with_pywin32 h true)).
  rewrite (imported_missing h Hi).
  cbn [outcome_of py_of trace_of log globals].
  split; [reflexivity|]. split; [cbn; tauto|]. split; [reflexivity|].
  split; [reflexivity|]. split; [reflexivity|]. split; [reflexivity|].
  intros x. split; [vm_compute; reflexivity|].
  intros e Hb.
  each_entry e; try (exfalso; apply Hb; reflexivity); split; vm_compute; reflexivity.
Qed.

(** The sample workbook on a machine without pywin32: the import returns
    and the button macro ends with NameError. *)
Lemma import_survives_missing_pywin32_witness :
  pywin32_installed sample_no_pywin32 = false /\
  outcome_of (imported sample_no_pywin32) = Returned None_ /\
  outcome_of (run excel_serve (entry_code (Callback inv_button_example))
                  (py_of (imported sample_no_pywin32)) sample_no_pywin32)
  = Raised (NameError "win32com").
Proof.
  split; [reflexivity|].
  pose proof (import_survives_missing_pywin32 sample_no_pywin32 eq_refl)
    as [Ho [_ [_ [_ [_ [_ Hx]]]]]].
  split; [exact Ho|].
  destruct (Hx sample_no_pywin32) as [_ He].
  destruct (He (Callback inv_button_example)) as [Hr _]; [discriminate|].
  exact Hr.
Defined.

(** ** The control macros on the reference host *)

(** C10, as stated, fails: on the sample workbook without the name
    checkbox_output a click on the checked check box ends with the COM
    error of [xl.Range("checkbox_output")] and writes nothing. *)
Lemma checkbox_example_may_write_nothing :
  pywin32_installed sample_unnamed = true /\
  caller sample_unnamed = CallerControl "Check Box 1" /\
  check_box sample_unnamed "Check Box 1" = Some (DInt 1) /\
  resolve sample_unnamed "checkbox_output" = None /\
  outcome_of (synchronous (excel_invoke inv_checkbox_example sample_unnamed))
  = Raised (com_error DISP_E_EXCEPTION) /\
  writes (trace_of (synchronous (excel_invoke inv_checkbox_example sample_unnamed)) ++
          async_trace (excel_invoke inv_checkbox_example sample_unnamed)) = [] /\
  ~ (List.length
       (writes (trace_of (synchronous (excel_invoke inv_checkbox_example sample_unnamed)) ++
                async_trace (excel_invoke inv_checkbox_example sample_unnamed)))
     = 1%nat).
Proof.
  split; [reflexivity|]. split; [reflexivity|]. split; [reflexivity|].
  split; [reflexivity|]. split; [vm_compute; reflexivity|].
  split; [vm_compute; reflexivity|].
  vm_compute. discriminate.
Qed.

(** C10, as amended.  When the macro is run by a check box of the active
    sheet and the name checkbox_output is defined, [checkbox_example]
    returns after exactly one write, to that range: 'CHECKED!' when the
    check box's [Value == 1], "Click the check box" otherwise; nothing else
    changes.  [Value == 1] holds for the int 1, the float 1.0 and [True],
    and for no other int, nor for [None] or text. *)
Theorem checkbox_example_reports_state (h : excel) (name : string) (d : data) (r : rect) :
  pywin32_installed h = true ->
  caller h = CallerControl name ->
  check_box h name = Some d ->
  resolve h "checkbox_output" = Some r ->
  on_sheet h r = true ->
  outcome_of (synchronous (excel_invoke inv_checkbox_example h)) = Returned None_ /\
  asynchronous (excel_invoke inv_checkbox_example h) = [] /\
  writes (trace_of (synchronous (excel_invoke inv_checkbox_example h))) =
    [(SetAttr (wrap (CRange r)) Value
              (str (if py_eq_int (VData d) 1 then "CHECKED!" else "Click the check box")),
      inl None_)] /\
  final_host (excel_invoke inv_checkbox_example h) =
    set_cells h (write_range r
                   (DStr (if py_eq_int (VData d) 1 then "CHECKED!" else "Click the check box"))
                   (cells h)) /\
  ((if py_eq_int (VData d) 1 then "CHECKED!" else "Click the check box") = "CHECKED!"
   <-> py_eq_int (VData d) 1 = true) /\
  (d = DInt 1 \/ d = DFloat (float_of_Z 1) \/ d = DBool true ->
   (if py_eq_int (VData d) 1 then "CHECKED!" else "Click the check box") = "CHECKED!") /\
  (forall n, d = DInt n -> n <> 1 ->
   (if py_eq_int (VData d) 1 then "CHECKED!" else "Click the check box")
   = "Click the check box") /\
  (d = DNone \/ d = DBool false \/ (exists text, d = DStr text) ->
   (if py_eq_int (VData d) 1 then "CHECKED!" else "Click the check box")
   = "Click the check box").
Proof.
  intros Hi Hc Hb Hr Ho.
  assert (Hrun :
    outcome_of (synchronous (excel_invoke inv_checkbox_example h)) = Returned None_ /\
    asynchronous (excel_invoke inv_checkbox_example h) = [] /\
    writes (trace_of (synchronous (excel_invoke inv_checkbox_example h))) =
      [(SetAttr (wrap (CRange r)) Value
                (str (if py_eq_int (VData d) 1 then "CHECKED!" else "Click the check box")),
        inl None_)] /\
    final_host (excel_invoke inv_checkbox_example h) =
      set_cells h (write_range r
                     (DStr (if py_eq_int (VData d) 1 then "CHECKED!"
                            else "Click the check box"))
                     (cells h)) /\
    ((if py_eq_int (VData d) 1 then "CHECKED!" else "Click the check box") = "CHECKED!"
     <-> py_eq_int (VData d) 1 = true)).
  { unfold excel_invoke, invoke_callback, final_host. rewrite (imported_installed h Hi).
    cbn. rewrite Hc. cbn. rewrite Hb. cbn. rewrite Hb. cbn.
    destruct (py_eq_int (VData d) 1); cbn; unfold range_object; rewrite Hr, Ho; cbn;
      repeat split; auto; discriminate. }
  destruct Hrun as [H1 [H2 [H3 [H4 H5]]]].
  repeat (split; [assumption|]).
  split; [|split].
  - intros [Hd|[Hd|Hd]]; subst d; vm_compute; reflexivity.
  - intros n Hd Hn. subst d. unfold py_eq_int.
    destruct (Z.eqb_spec n 1) as [Heq|_]; [contradiction|reflexivity].
  - intros [Hd|[Hd|[text Hd]]]; subst d; reflexivity.
Qed.

(** The sample workbook, whose check box is checked ([Value] is 1): the
    text written is 'CHECKED!'. *)
Lemma checkbox_example_reports_state_witness :
  (pywin32_installed sample = true /\
   caller sample = CallerControl "Check Box 1" /\
   check_box sample "Check Box 1" = Some (DInt 1) /\
   resolve sample "checkbox_output" = Some A6 /\
   on_sheet sample A6 = true) /\
  writes (trace_of (synchronous (excel_invoke inv_checkbox_example sample))) =
    [(SetAttr (wrap (CRange A6)) Value (str "CHECKED!"), inl None_)] /\
  final_host (excel_invoke inv_checkbox_example sample) =
    set_cells sample (write_range A6 (DStr "CHECKED!") (cells sample)).
Proof.
  split; [repeat split|].
  pose proof (checkbox_example_reports_state sample "Check Box 1" (DInt 1) A6
                eq_refl eq_refl eq_refl eq_refl eq_refl) as [_ [_ [Hw [Hf _]]]].
  split; [exact Hw|exact Hf].
Defined.

(** Python's [+ 1] on the values a cell can hold: ints and bools add as
    integers, 41.0 gives 42.0, text and [None] raise TypeError. *)
Lemma py_add_int_cases :
  (forall a n, py_add_int (int a) n = inl (int (a + n))) /\
  (forall b n, py_add_int (VData (DBool b)) n = inl (int (Z.b2z b + n))) /\
  py_add_int (VData (DFloat (float_of_Z 41))) 1 = inl (VData (DFloat (float_of_Z 42))) /\
  (forall text n, py_add_int (str text) n = inr TypeError) /\
  (forall n, py_add_int None_ n = inr TypeError).
Proof.
  split; [reflexivity|]. split; [reflexivity|].
  split; [vm_compute; reflexivity|]. split; reflexivity.
Qed.

Lemma py_add_int_inl (x : data) (n : Z) (w : value) :
  py_add_int (VData x) n = inl w ->
  (exists d, w = VData d /\ forall i j, element d i j = d) /\
  (forall rows, x <> DArray rows).
Proof.
  unfold py_add_int. destruct x; try discriminate.
  - intros Hw; inversion Hw. split; [eexists; split; reflexivity|discriminate].
  - intros Hw; inversion Hw. split; [eexists; split; reflexivity|discriminate].
  - destruct (float_of_Z n); intros Hw; inversion Hw;
      (split; [eexists; split; reflexivity|discriminate]).
Qed.

Lemma read_after_write (h : excel) (r : rect) (d : data) :
  single_cell r = true ->
  (forall i j, element d i j = d) ->
  read_range (set_cells h (write_range r d (cells h))) r = d.
Proof.
  intros Hs Hd. unfold read_range. rewrite Hs. cbn [cells set_cells].
  unfold write_range, inside.
  unfold single_cell in Hs. apply andb_true_iff in Hs. destruct Hs as [Hh Hw].
  apply Z.eqb_eq in Hh. apply Z.eqb_eq in Hw. rewrite Hh, Hw.
  replace ((top r <=? top r) && (top r <? top r + 1) &&
           (left r <=? left r) && (left r <? left r + 1)) with true.
  - apply Hd.
  - symmetry. rewrite !andb_true_iff, !Z.leb_le, !Z.ltb_lt. lia.
Qed.

(** C9, as stated, fails twice on the sample workbook.  With text in the
    cell, [range.Value + 1] raises TypeError and the cell keeps its text.
    With 2^53 in the cell the macro returns and the cell still holds 2^53:
    the sum is rounded to the nearest double. *)
Lemma button_example_not_always_plus_one :
  (resolve sample_text "button_output" = Some A5 /\
   read_range sample_text A5 = DStr "abc" /\
   outcome_of (synchronous (excel_invoke inv_button_example sample_text))
   = Raised TypeError /\
   read_range (final_host (excel_invoke inv_button_example sample_text)) A5
   = DStr "abc") /\
  (resolve sample_big "button_output" = Some A5 /\
   read_range sample_big A5 = DFloat (float_of_Z (2 ^ 53)) /\
   outcome_of (synchronous (excel_invoke inv_button_example sample_big))
   = Returned None_ /\
   read_range (final_host (excel_invoke inv_button_example sample_big)) A5
   = read_range sample_big A5).
Proof.
  repeat split; vm_compute; reflexivity.
Qed.

(** C9, as amended.  When the name button_output is defined,
    [button_example] reads the range's [Value] and evaluates [Value + 1].
    If Python can add (the range is one cell that holds a float, an int or
    a bool), the macro returns after exactly one write, of that sum to that
    range, which then holds it, and nothing else changes.  Otherwise the
    addition raises, the macro ends with that exception and nothing is
    written. *)
Theorem button_example_adds_one (h : excel) (r : rect) :
  pywin32_installed h = true ->
  resolve h "button_output" = Some r ->
  on_sheet h r = true ->
  asynchronous (excel_invoke inv_button_example h) = [] /\
  match py_add_int (VData (read_range h r)) 1 with
  | inl w =>
      outcome_of (synchronous (excel_invoke inv_button_example h)) = Returned None_ /\
      writes (trace_of (synchronous (excel_invoke inv_button_example h))) =
        [(SetAttr (wrap (CRange r)) Value w, inl None_)] /\
      exists d,
        w = VData d /\
        final_host (excel_invoke inv_button_example h) =
          set_cells h (write_range r d (cells h)) /\
        read_range (final_host (excel_invoke inv_button_example h)) r = d
  | inr e =>
      outcome_of (synchronous (excel_invoke inv_button_example h)) = Raised e /\
      writes (trace_of (synchronous (excel_invoke inv_button_example h))) = [] /\
      final_host (excel_invoke inv_button_example h) = h
  end.
Proof.
  intros Hi Hr Ho.
  unfold excel_invoke, invoke_callback, final_host. rewrite (imported_installed h Hi).
  cbn. rewrite Hr. unfold range_object. rewrite Ho. cbn.
  destruct (py_add_int (VData (read_range h r)) 1) as [w|e] eqn:Hadd; cbn.
  - destruct (py_add_int_inl _ _ _ Hadd) as [[d [Hw Hd]] Hnoarray]. subst w. cbn.
    repeat split. exists d. repeat split.
    apply read_after_write; [|exact Hd].
    unfold read_range in Hnoarray.
    destruct (single_cell r); [reflexivity|].
    exfalso. eapply Hnoarray. reflexivity.
  - repeat split.
Qed.

(** The sample workbook, where button_output is the cell A5. *)
Lemma button_example_adds_one_witness :
  (pywin32_installed sample = true /\
   resolve sample "button_output" = Some A5 /\
   on_sheet sample A5 = true) /\
  asynchronous (excel_invoke inv_button_example sample) = [] /\
  match py_add_int (VData (read_range sample A5)) 1 with
  | inl w =>
      outcome_of (synchronous (excel_invoke inv_button_example sample)) = Returned None_ /\
      writes (trace_of (synchronous (excel_invoke inv_button_example sample))) =
        [(SetAttr (wrap (CRange A5)) Value w, inl None_)] /\
      exists d,
        w = VData d /\
        final_host (excel_invoke inv_button_example sample) =
          set_cells sample (write_range A5 d (cells sample)) /\
        read_range (final_host (excel_invoke inv_button_example sample)) A5 = d
  | inr e =>
      outcome_of (synchronous (excel_invoke inv_button_example sample)) = Raised e /\
      writes (trace_of (synchronous (excel_invoke inv_button_example sample))) = [] /\
      final_host (excel_invoke inv_button_example sample) = sample
  end.
Proof.
  split; [repeat split|].
  exact (button_example_adds_one sample A5 eq_refl eq_refl eq_refl).
Defined.

(** On the sample workbook the cell holds 41.0 before and 42.0 after. *)
Lemma button_example_on_sample :
  read_range sample A5 = DFloat (float_of_Z 41) /\
  read_range (final_host (excel_invoke inv_button_example sample)) A5
  = DFloat (float_of_Z 42).
Proof. split; vm_compute; reflexivity. Qed.

(** ** The block that [update_func] fills *)

Lemma block_below (c : rect) (rows cols : Z) :
  1 <= rows -> 1 <= cols ->
  bounding (item c 2 1) (item c (rows + 1) cols)
  = Rect (top c + 1) (left c) rows cols.
Proof.
  intros Hr Hc. unfold bounding, item. cbn [top left height width].
  f_equal; lia.
Qed.

Lemma on_sheet_parts (h : excel) (c : rect) (rows cols : Z) :
  1 <= rows -> 1 <= cols ->
  single_cell c = true ->
  on_sheet h (Rect (top c) (left c) (rows + 1) cols) = true ->
  on_sheet h c = true /\
  on_sheet h (item c 2 1) = true /\
  on_sheet h (item c (rows + 1) cols) = true /\
  on_sheet h (Rect (top c + 1) (left c) rows cols) = true.
Proof.
  intros Hr Hc Hs Ho. unfold on_sheet, item, single_cell in *.
  cbn [top left height width] in *.
  rewrite !andb_true_iff, ?Z.leb_le, ?Z.eqb_eq in *.
  repeat split; lia.
Qed.

Lemma calling_cell_outside_block (c : rect) (rows cols : Z) :
  inside (Rect (top c + 1) (left c) rows cols) (top c) (left c) = false.
Proof.
  unfold inside. cbn [top left height width].
  replace (top c + 1 <=? top c) with false; [reflexivity|].
  symmetry. apply Z.leb_gt. lia.
Qed.

(** C8, as stated, fails: [=automation_example(2, 3, "x")] in cell
    B1048576 of the sample workbook, in the last row, returns the address,
    but there is no cell below: the update ends with a COM error and writes
    nothing. *)
Lemma automation_example_block_may_not_exist :
  1 <= 2 /\ 1 <= 3 /\
  caller sample_last_row = CallerCell B1048576 /\
  outcome_of (synchronous
                (excel_invoke (inv_automation_example 2 3 (DStr "x")) sample_last_row))
  = Returned (str "$B$1048576") /\
  map outcome_of (asynchronous
                    (excel_invoke (inv_automation_example 2 3 (DStr "x")) sample_last_row))
  = [Raised (com_error DISP_E_EXCEPTION)] /\
  writes (async_trace
            (excel_invoke (inv_automation_example 2 3 (DStr "x")) sample_last_row))
  = [] /\
  map (fun j => cells (final_host
                         (excel_invoke (inv_automation_example 2 3 (DStr "x"))
                                       sample_last_row)) 1048576 j)
      [2; 3; 4]
  = map (fun j => cells sample_last_row 1048576 j) [2; 3; 4].
Proof.
  split; [lia|]. split; [lia|]. split; [reflexivity|].
  split; [vm_compute; reflexivity|]. split; [vm_compute; reflexivity|].
  split; vm_compute; reflexivity.
Qed.

(** C8, as amended.  On the reference host, when a worksheet function is being
    calculated in the single cell [c], the address pyxll reports for [c]
    resolves to [c], and the [rows + 1] by [cols] cells from [c] on lie on
    the sheet: [automation_example(rows, cols, value)] with [rows >= 1] and
    [cols >= 1] returns the address of [c] without writing; the update it
    scheduled then returns after one write, of [value] to the [rows] by
    [cols] block whose first cell is the one below [c]; the cells of that
    block hold [value] and every other cell, [c] among them, is as before. *)
Theorem automation_example_fills_block_below (h : excel) (c : rect)
    (rows cols : Z) (value_ : data) :
  1 <= rows -> 1 <= cols ->
  pywin32_installed h = true ->
  caller h = CallerCell c ->
  single_cell c = true ->
  resolve h (address_of h c) = Some c ->
  on_sheet h (Rect (top c) (left c) (rows + 1) cols) = true ->
  outcome_of (synchronous (excel_invoke (inv_automation_example rows cols value_) h))
  = Returned (str (address_of h c)) /\
  writes (trace_of (synchronous (excel_invoke (inv_automation_example rows cols value_) h)))
  = [] /\
  host_of (synchronous (excel_invoke (inv_automation_example rows cols value_) h)) = h /\
  map outcome_of (asynchronous (excel_invoke (inv_automation_example rows cols value_) h))
  = [Returned None_] /\
  writes (async_trace (excel_invoke (inv_automation_example rows cols value_) h))
  = [(SetAttr (wrap (CRange (Rect (top c + 1) (left c) rows cols))) Value (VData value_),
      inl None_)] /\
  final_host (excel_invoke (inv_automation_example rows cols value_) h)
  = set_cells h (write_range (Rect (top c + 1) (left c) rows cols) value_ (cells h)) /\
  inside (Rect (top c + 1) (left c) rows cols) (top c) (left c) = false /\
  (forall i j,
      cells (final_host (excel_invoke (inv_automation_example rows cols value_) h)) i j
      = if inside (Rect (top c + 1) (left c) rows cols) i j
        then element value_ (Z.to_nat (i - (top c + 1))) (Z.to_nat (j - left c))
        else cells h i j).
Proof.
  intros Hrows Hcols Hi Hcaller Hs Hres Hsheet.
  destruct (on_sheet_parts h c rows cols Hrows Hcols Hs Hsheet) as [Hc [Ha [Hb Hblock]]].
  assert (Hfinal :
    outcome_of (synchronous (excel_invoke (inv_automation_example rows cols value_) h))
    = Returned (str (address_of h c)) /\
    writes (trace_of (synchronous (excel_invoke (inv_automation_example rows cols value_) h)))
    = [] /\
    host_of (synchronous (excel_invoke (inv_automation_example rows cols value_) h)) = h /\
    map outcome_of (asynchronous (excel_invoke (inv_automation_example rows cols value_) h))
    = [Returned None_] /\
    writes (async_trace (excel_invoke (inv_automation_example rows cols value_) h))
    = [(SetAttr (wrap (CRange (Rect (top c + 1) (left c) rows cols))) Value (VData value_),
        inl None_)] /\
    final_host (excel_invoke (inv_automation_example rows cols value_) h)
    = set_cells h (write_range (Rect (top c + 1) (left c) rows cols) value_ (cells h))).
  { unfold excel_invoke, invoke_callback, final_host, async_trace.
    rewrite (imported_installed h Hi).
    cbn. rewrite Hcaller. cbn. rewrite Hres. unfold range_object. rewrite Hc. cbn.
    rewrite Ha. cbn. rewrite Hb. cbn.
    rewrite (block_below c rows cols Hrows Hcols). rewrite Hblock. cbn.
    repeat split; reflexivity. }
  destruct Hfinal as [H1 [H2 [H3 [H4 [H5 H6]]]]].
  repeat (split; [assumption|]).
  split; [apply calling_cell_outside_block|].
  intros i j. rewrite H6. reflexivity.
Qed.

(** [=automation_example(2, 3, "x")] in cell B2 of the sample workbook. *)
Lemma automation_example_fills_block_below_witness :
  (1 <= 2 /\ 1 <= 3 /\
   pywin32_installed sample_calc = true /\
   caller sample_calc = CallerCell B2 /\
   single_cell B2 = true /\
   resolve sample_calc (address_of sample_calc B2) = Some B2 /\
   on_sheet sample_calc (Rect (top B2) (left B2) (2 + 1) 3) = true) /\
  final_host (excel_invoke (inv_automation_example 2 3 (DStr "x")) sample_calc)
  = set_cells sample_calc
      (write_range (Rect (top B2 + 1) (left B2) 2 3) (DStr "x") (cells sample_calc)).
Proof.
  split; [repeat split; try reflexivity; lia|].
  exact (proj1 (proj2 (proj2 (proj2 (proj2 (proj2
    (automation_example_fills_block_below sample_calc B2 2 3 (DStr "x")
       ltac:(lia) ltac:(lia) eq_refl eq_refl eq_refl eq_refl eq_refl))))))).
Defined.

(** The cells of the sample workbook after [=automation_example(2, 3, "x")]
    in B2: rows 1 to 5 of columns A to D. *)
Lemma automation_example_on_sample :
  map (fun i =>
         map (fun j =>
                cells (final_host (excel_invoke (inv_automation_example 2 3 (DStr "x"))
                                                sample_calc)) i j)
             [1; 2; 3; 4; 5])
      [1; 2; 3; 4; 5]
  = [[DNone; DNone; DNone; DNone; DNone];
     [DNone; DNone; DNone; DNone; DNone];
     [DNone; DStr "x"; DStr "x"; DStr "x"; DNone];
     [DNone; DStr "x"; DStr "x"; DStr "x"; DNone];
     [DFloat (float_of_Z 41); DNone; DNone; DNone; DNone]].
Proof. vm_compute. reflexivity. Qed.

(** ** What the module keeps between invocations *)

Lemma excel_address_is_string (o : value) (h1 : excel) (a : value) :
  fst (excel_serve (GetAttr o Address) h1) = inl a -> exists text, a = str text.
Proof.
  destruct o as [d|[c|c|c m|r]|n| |n]; cbn; try discriminate.
  - destruct c; cbn; discriminate.
  - intros Ha. inversion Ha. eexists; reflexivity.
Qed.

Lemma holds_handle_globals (s s' : pystate) :
  holds_handle s = false ->
  globals s' = globals s ->
  pending s' = [] ->
  holds_handle s' = false.
Proof.
  unfold holds_handle. intros Hs Hg Hp. rewrite Hg, Hp. cbn [existsb].
  apply orb_false_iff in Hs. destruct Hs as [Hs _]. rewrite Hs. reflexivity.
Qed.

Lemma scheduled_closure_is_plain (rows cols : Z) (value_ : data)
    (s : pystate) (x : excel) (f : closure) :
  In f (pending (py_of (synchronous
          (invoke_callback excel_serve (inv_automation_example rows cols value_) s x)))) ->
  exists text, f = UpdateFunc (str text) rows cols value_.
Proof.
  destruct (automation_example_invoked excel excel_serve rows cols value_ s x)
    as [_ [Hpost _]].
  remember (synchronous
              (invoke_callback excel_serve (inv_automation_example rows cols value_) s x))
    as y eqn:Ey.
  assert (Htrace : forall c r, In (c, r) (trace_of y) ->
                               exists h1, fst (excel_serve c h1) = r).
  { intros c r Hin. subst y. unfold invoke_callback in Hin. cbn [synchronous] in Hin.
    eapply trace_served. exact Hin. }
  destruct (outcome_of y) as [a|e]; cbn in Hpost.
  - destruct Hpost as [cell [Ht Hp]]. rewrite Hp. intros [Hf|[]]. subst f.
    destruct (Htrace (GetAttr cell Address) (inl a)) as [h1 Hh1].
    { rewrite Ht. right; left; reflexivity. }
    destruct (excel_address_is_string cell h1 a Hh1) as [text Ha]. subst a.
    exists text. reflexivity.
  - destruct Hpost as [Hp _]. rewrite Hp. intros [].
Qed.

(** C6.  On the reference host the module state never holds a reference to
    a host object.  After the import every global is a module, the logger
    or a function.  An invocation that starts in a state without handles
    leaves the globals as they were and ends, as does every function it
    scheduled, in a state without handles.  The function that
    [automation_example] hands to [async_call] closes over the address
    string, [rows], [cols] and [value], and its code starts with [xl_app]. *)
Theorem no_handle_outlives_an_invocation (h : excel) :
  forallb (fun nv => is_module_object (snd nv)) (globals (py_of (imported h))) = true /\
  holds_handle (py_of (imported h)) = false /\
  (forall (i : invocation) (s : pystate) (x : excel),
      holds_handle s = false ->
      globals (py_of (synchronous (invoke_callback excel_serve i s x))) = globals s /\
      holds_handle (py_of (synchronous (invoke_callback excel_serve i s x))) = false /\
      Forall (fun y => globals (py_of y) = globals s /\ holds_handle (py_of y) = false)
             (asynchronous (invoke_callback excel_serve i s x))) /\
  (forall (rows cols : Z) (value_ : data) (s : pystate) (x : excel) (f : closure),
      In f (pending (py_of (synchronous
              (invoke_callback excel_serve (inv_automation_example rows cols value_) s x)))) ->
      (exists text, f = UpdateFunc (str text) rows cols value_) /\
      existsb is_handle (captured f) = false) /\
  (forall f : closure,
      closure_code f =
      (xl <- xl_app ;;
       update_func_body (cl_address f) (cl_rows f) (cl_cols f) (cl_value f) xl)).
Proof.
  split; [|split; [|split; [|split]]].
  - destruct (pywin32_installed h) eqn:Hi.
    + rewrite (imported_installed h Hi). reflexivity.
    + rewrite (imported_missing h Hi). reflexivity.
  - destruct (pywin32_installed h) eqn:Hi.
    + rewrite (imported_installed h Hi). reflexivity.
    + rewrite (imported_missing h Hi). reflexivity.
  - intros i s x Hs.
    assert (Hg : globals (py_of (synchronous (invoke_callback excel_serve i s x)))
                 = globals s).
    { unfold invoke_callback. cbn [synchronous].
      exact (entry_keeps_globals excel excel_serve (Callback i) (take_pending s) x). }
    split; [exact Hg|].
    assert (Hasync :
      Forall (fun y => globals (py_of y) = globals s /\ holds_handle (py_of y) = false)
             (asynchronous (invoke_callback excel_serve i s x)) /\
      (forall f, In f (pending (py_of (synchronous (invoke_callback excel_serve i s x)))) ->
                 existsb is_handle (captured f) = false)).
    { destruct (entry_body (Callback i)) as [body|] eqn:Hb.
      - assert (Hsome : entry_body (Callback i) <> None) by (rewrite Hb; discriminate).
        rewrite (command_schedules_nothing excel excel_serve i s x Hsome).
        split; [constructor|].
        unfold invoke_callback. cbn [synchronous].
        change (code i) with (entry_code (Callback i)).
        rewrite (entry_keeps_pending excel excel_serve (Callback i) (take_pending s) x Hsome).
        intros f [].
      - destruct i as [| | | |rows cols value_]; try discriminate Hb.
        split.
        + destruct (automation_example_invoked excel excel_serve rows cols value_ s x)
            as [_ [_ [Ha _]]].
          rewrite Ha.
          destruct (outcome_of (synchronous
                      (invoke_callback excel_serve
                         (inv_automation_example rows cols value_) s x))) as [a|e];
            [|constructor].
          constructor; [|constructor].
          pose proof (entry_keeps_globals excel excel_serve
                        (Scheduled (UpdateFunc a rows cols value_))
                        (take_pending (py_of (synchronous
                           (invoke_callback excel_serve
                              (inv_automation_example rows cols value_) s x))))
                        (host_of (synchronous
                           (invoke_callback excel_serve
                              (inv_automation_example rows cols value_) s x)))) as Hg2.
          pose proof (entry_keeps_pending excel excel_serve
                        (Scheduled (UpdateFunc a rows cols value_))
                        (take_pending (py_of (synchronous
                           (invoke_callback excel_serve
                              (inv_automation_example rows cols value_) s x))))
                        (host_of (synchronous
                           (invoke_callback excel_serve
                              (inv_automation_example rows cols value_) s x)))
                        ltac:(discriminate)) as Hp2.
          change (entry_code (Scheduled (UpdateFunc a rows cols value_)))
            with (update_func a rows cols value_) in Hg2, Hp2.
          cbn [take_pending globals pending] in Hg2, Hp2.
          split.
          * rewrite Hg2. exact Hg.
          * eapply holds_handle_globals; [exact Hs| |exact Hp2].
            rewrite Hg2. exact Hg.
        + intros f Hf.
          destruct (scheduled_closure_is_plain rows cols value_ s x f Hf) as [text Ht].
          subst f. reflexivity. }
    destruct Hasync as [Hforall Hplain].
    split; [|exact Hforall].
    unfold holds_handle. rewrite Hg.
    unfold holds_handle in Hs. apply orb_false_iff in Hs. destruct Hs as [Hs _].
    rewrite Hs. cbn [orb].
    apply not_true_is_false. intros Hex. apply existsb_exists in Hex.
    destruct Hex as [f [Hf Hh]]. rewrite (Hplain f Hf) in Hh. discriminate.
  - intros rows cols value_ s x f Hf.
    destruct (scheduled_closure_is_plain rows cols value_ s x f Hf) as [text Ht].
    split; [exists text; exact Ht|]. subst f. reflexivity.
  - intros f. reflexivity.
Qed.

(** ** The menu function and the scroll-bar macro on the reference host *)

(** When the selection lies on the sheet, [win32com_menu_test] writes
    "Hello!" to the selection and then raises one alert; nothing else
    changes. *)
Theorem win32com_menu_test_writes_hello (h : excel) :
  pywin32_installed h = true ->
  on_sheet h (selection h) = true ->
  outcome_of (synchronous (excel_invoke inv_win32com_menu_test h)) = Returned None_ /\
  asynchronous (excel_invoke inv_win32com_menu_test h) = [] /\
  writes (trace_of (synchronous (excel_invoke inv_win32com_menu_test h))) =
    [(SetAttr (wrap (CRange (selection h))) Value (str "Hello!"), inl None_)] /\
  final_host (excel_invoke inv_win32com_menu_test h) =
    add_alert (set_cells h (write_range (selection h) (DStr "Hello!") (cells h)))
              "Some text has been written to the current cell".
Proof.
  intros Hi Ho.
  unfold excel_invoke, invoke_callback, final_host. rewrite (imported_installed h Hi).
  cbn. unfold range_object. rewrite Ho. cbn. repeat split.
Qed.

(** The sample workbook, whose selection is the cell A1. *)
Lemma win32com_menu_test_writes_hello_witness :
  (pywin32_installed sample = true /\ on_sheet sample (selection sample) = true) /\
  final_host (excel_invoke inv_win32com_menu_test sample) =
    add_alert (set_cells sample
                 (write_range (selection sample) (DStr "Hello!") (cells sample)))
              "Some text has been written to the current cell".
Proof.
  split; [split; reflexivity|].
  exact (proj2 (proj2 (proj2
           (win32com_menu_test_writes_hello sample eq_refl eq_refl)))).
Defined.

(** When the macro is run by a scroll bar of the active sheet and the name
    scrollbar_output is defined, [scrollbar_example] copies the scroll
    bar's [Value] to that range with one write; nothing else changes. *)
Theorem scrollbar_example_copies_value (h : excel) (name : string) (d : data) (r : rect) :
  pywin32_installed h = true ->
  caller h = CallerControl name ->
  scroll_bar h name = Some d ->
  resolve h "scrollbar_output" = Some r ->
  on_sheet h r = true ->
  outcome_of (synchronous (excel_invoke inv_scrollbar_example h)) = Returned None_ /\
  asynchronous (excel_invoke inv_scrollbar_example h) = [] /\
  writes (trace_of (synchronous (excel_invoke inv_scrollbar_example h))) =
    [(SetAttr (wrap (CRange r)) Value (VData d), inl None_)] /\
  final_host (excel_invoke inv_scrollbar_example h) =
    set_cells h (write_range r d (cells h)).
Proof.
  intros Hi Hc Hb Hr Ho.
  unfold excel_invoke, invoke_callback, final_host. rewrite (imported_installed h Hi).
  cbn. rewrite Hc. cbn. rewrite ?Hc. cbn. rewrite Hb. cbn. rewrite ?Hb. cbn.
  rewrite Hr. unfold range_object. rewrite Ho. cbn. repeat split.
Qed.

(** The sample workbook while its scroll bar, at 30, runs the macro. *)
Lemma scrollbar_example_copies_value_witness :
  (pywin32_installed (with_caller sample (CallerControl "Scroll Bar 1")) = true /\
   caller (with_caller sample (CallerControl "Scroll Bar 1"))
   = CallerControl "Scroll Bar 1" /\
   scroll_bar (with_caller sample (CallerControl "Scroll Bar 1")) "Scroll Bar 1"
   = Some (DInt 30) /\
   resolve (with_caller sample (CallerControl "Scroll Bar 1")) "scrollbar_output"
   = Some A7 /\
   on_sheet (with_caller sample (CallerControl "Scroll Bar 1")) A7 = true) /\
  final_host (excel_invoke inv_scrollbar_example
                (with_caller sample (CallerControl "Scroll Bar 1"))) =
    set_cells (with_caller sample (CallerControl "Scroll Bar 1"))
      (write_range A7 (DInt 30)
         (cells (with_caller sample (CallerControl "Scroll Bar 1")))).
Proof.
  split; [repeat split|].
  exact (proj2 (proj2 (proj2
           (scrollbar_example_copies_value
              (with_caller sample (CallerControl "Scroll Bar 1"))
              "Scroll Bar 1" (DInt 30) A7 eq_refl eq_refl eq_refl eq_refl eq_refl)))).
Defined.

(** ** Failures and the write *)

Ltac wp_paths_eq :=
  repeat (cbn;
          match goal with
          | |- _ /\ _ => split
          | |- forall _, _ => intro
          | Hl : lookup ?n ?g = _ |- context [lookup ?n ?g] => rewrite Hl
          | |- context [lookup ?n ?g] => destruct (lookup n g) eqn:?
          | |- context [wp (if ?b then _ else _)] => destruct b eqn:?
          | |- context [lift ?r] => destruct r as [?|?] eqn:?
          end).

Section AnyHostFailures.

Variable H : Type.
Variable serve : call -> H -> response * H.

(** In the three macros and in [update_func] the write is the last call:
    whatever the host is, when one of them ends with an exception the host
    has accepted no write from it. *)
Theorem macros_fail_before_writing (e : entry) (s : pystate) (h : H) :
  e <> Callback inv_win32com_menu_test ->
  returned (outcome_of (run serve (entry_code e) s h)) = false ->
  accepted_writes (trace_of (run serve (entry_code e) s h)) = [].
Proof.
  intros Hne.
  apply (wp_run H serve (entry_code e) s h nothing_written_when_raised).
  unfold nothing_written_when_raised.
  each_entry e; try (exfalso; apply Hne; reflexivity); wp_paths;
    try reflexivity; discriminate.
Qed.

(** The synchronous part of [automation_example] never looks at its
    arguments: whatever the host is, its outcome, its calls and the host's
    state afterwards are the same for all [rows], [cols] and [value]. *)
Theorem automation_example_ignores_its_arguments
    (rows cols rows' cols' : Z) (value_ value' : data) (s : pystate) (h : H) :
  outcome_of (run serve (automation_example rows cols value_) s h)
  = outcome_of (run serve (automation_example rows' cols' value') s h) /\
  trace_of (run serve (automation_example rows cols value_) s h)
  = trace_of (run serve (automation_example rows' cols' value') s h) /\
  host_of (run serve (automation_example rows cols value_) s h)
  = host_of (run serve (automation_example rows' cols' value') s h).
Proof.
  cbn. destruct (serve (Lib xlfCaller []) h) as [[x|e] h1]; cbn.
  - destruct (serve (GetAttr x Address) h1) as [[a|e] h2]; cbn; repeat split.
  - repeat split.
Qed.

(** Whatever the host is, when [button_example] returns it has read
    [Value] of one object and written that value plus 1 to the same
    object, and has written nothing else. *)
Theorem button_example_increments_what_it_read (s : pystate) (h : H) :
  returned (outcome_of (run serve button_example s h)) = true ->
  exists range v w r,
    In (GetAttr range Value, inl v) (trace_of (run serve button_example s h)) /\
    py_add_int v 1 = inl w /\
    writes (trace_of (run serve button_example s h)) = [(SetAttr range Value w, inl r)].
Proof.
  apply (wp_run H serve button_example s h button_example_post).
  unfold button_example_post.
  wp_paths_eq; try discriminate.
  match goal with
  | Hadd : py_add_int ?v 1 = inl ?w |- _ =>
      eexists _, v, w, _; split; [|split; [exact Hadd|reflexivity]]
  end.
  cbn. tauto.
Qed.

(** Whatever the host is, when [checkbox_example] returns it has written
    once, to what [Range("checkbox_output")] gave: 'CHECKED!' when the
    [Value] it read from the check box equals 1, "Click the check box"
    otherwise. *)
Theorem checkbox_example_writes_what_it_read (s : pystate) (h : H) :
  returned (outcome_of (run serve checkbox_example s h)) = true ->
  exists CheckBoxes_ caller_ check_box v Range_ range r,
    In (Call CheckBoxes_ [caller_], inl check_box)
       (trace_of (run serve checkbox_example s h)) /\
    In (GetAttr check_box Value, inl v) (trace_of (run serve checkbox_example s h)) /\
    In (Call Range_ [str "checkbox_output"], inl range)
       (trace_of (run serve checkbox_example s h)) /\
    writes (trace_of (run serve checkbox_example s h)) =
      [(SetAttr range Value
          (str (if py_eq_int v 1 then "CHECKED!" else "Click the check box")),
        inl r)].
Proof.
  apply (wp_run H serve checkbox_example s h checkbox_example_post).
  unfold checkbox_example_post.
  wp_paths_eq; try discriminate;
    match goal with
    | Heq : py_eq_int ?v 1 = _ |- _ =>
        eexists _, _, _, v, _, _, _; rewrite Heq;
          (split; [|split; [|split; [|reflexivity]]]); cbn; tauto
    end.
Qed.

End AnyHostFailures.

(** The scroll-bar macro run from a check box of the sample workbook ends
    with a COM error, having written nothing. *)
Lemma macros_fail_before_writing_witness :
  (Callback inv_scrollbar_example <> Callback inv_win32com_menu_test /\
   returned (outcome_of (run excel_serve (entry_code (Callback inv_scrollbar_example))
                             (py_of (imported sample)) sample)) = false) /\
  accepted_writes (trace_of (run excel_serve (entry_code (Callback inv_scrollbar_example))
                                 (py_of (imported sample)) sample)) = [].
Proof.
  assert (Hne : Callback inv_scrollbar_example <> Callback inv_win32com_menu_test)
    by discriminate.
  assert (Hr : returned (outcome_of (run excel_serve
                  (entry_code (Callback inv_scrollbar_example))
                  (py_of (imported sample)) sample)) = false)
    by (vm_compute; reflexivity).
  split; [split; assumption|].
  exact (macros_fail_before_writing excel excel_serve _ _ _ Hne Hr).
Defined.

(** A click on the button of the sample workbook. *)
Lemma button_example_increments_what_it_read_witness :
  returned (outcome_of (run excel_serve button_example (py_of (imported sample)) sample))
  = true /\
  exists range v w r,
    In (GetAttr range Value, inl v)
       (trace_of (run excel_serve button_example (py_of (imported sample)) sample)) /\
    py_add_int v 1 = inl w /\
    writes (trace_of (run excel_serve button_example (py_of (imported sample)) sample))
    = [(SetAttr range Value w, inl r)].
Proof.
  assert (Hr : returned (outcome_of (run excel_serve button_example
                                         (py_of (imported sample)) sample)) = true)
    by (vm_compute; reflexivity).
  split; [exact Hr|].
  exact (button_example_increments_what_it_read excel excel_serve _ _ Hr).
Defined.

(** A click on the check box of the sample workbook. *)
Lemma checkbox_example_writes_what_it_read_witness :
  returned (outcome_of (run excel_serve checkbox_example (py_of (imported sample)) sample))
  = true /\
  exists CheckBoxes_ caller_ check_box v Range_ range r,
    In (Call CheckBoxes_ [caller_], inl check_box)
       (trace_of (run excel_serve checkbox_example (py_of (imported sample)) sample)) /\
    In (GetAttr check_box Value, inl v)
       (trace_of (run excel_serve checkbox_example (py_of (imported sample)) sample)) /\
    In (Call Range_ [str "checkbox_output"], inl range)
       (trace_of (run excel_serve checkbox_example (py_of (imported sample)) sample)) /\
    writes (trace_of (run excel_serve checkbox_example (py_of (imported sample)) sample)) =
      [(SetAttr range Value
          (str (if py_eq_int v 1 then "CHECKED!" else "Click the check box")),
        inl r)].
Proof.
  assert (Hr : returned (outcome_of (run excel_serve checkbox_example
                                         (py_of (imported sample)) sample)) = true)
    by (vm_compute; reflexivity).
  split; [exact Hr|].
  exact (checkbox_example_writes_what_it_read excel excel_serve _ _ Hr).
Defined.

(** ** Importing the module into any host *)

(** Whatever the host answers to the import statements, importing the
    module ends in one of three ways.  It returns with the five
    registrations, no warning and [win32com] bound, after
    [import win32com.client] succeeded.  It returns with the five
    registrations, the three warnings and [win32com] unbound, after that
    import raised ImportError.  Or it raises what an import raised, with
    nothing registered: any failure of [import pyxll] or [import logging],
    and any exception of [import win32com.client] other than ImportError. *)
Theorem module_import_registers_all_or_nothing
    (H : Type) (serve : call -> H -> response * H) (h : H) :
  module_body_post (outcome_of (run serve module_body empty_module h))
                   (py_of (run serve module_body empty_module h))
                   (trace_of (run serve module_body empty_module h)).
Proof.
  apply wp_run. unfold module_body_post.
  cbn. split; [intros m1|intros e].
  2: { repeat split. eexists. split; [left; reflexivity|discriminate]. }
  split; [intros m2|intros e].
  2: { repeat split. eexists. split; [right; left; reflexivity|discriminate]. }
  split; [intros m3|intros e].
  2: { repeat split. eexists. split; [do 2 right; left; reflexivity|discriminate]. }
  split; [intros m4|intros e].
  - split; [reflexivity|]. left. repeat split.
    exists m4. do 3 right. left. reflexivity.
  - destruct (is_ImportError e) eqn:He.
    + destruct e; try discriminate He. cbn.
      split; [reflexivity|]. right. repeat split.
      eexists. do 3 right. left. reflexivity.
    + destruct e; try discriminate He; cbn;
        (repeat split; eexists; (split; [do 3 right; left; reflexivity|reflexivity])).
Qed.

(** ** Edges of [automation_example] *)

Lemma block_at_caller (c : rect) (cols : Z) :
  1 <= cols ->
  bounding (item c 2 1) (item c 1 cols) = Rect (top c) (left c) 2 cols.
Proof.
  intros Hc. unfold bounding, item. cbn [top left height width].
  f_equal; lia.
Qed.

Lemma on_sheet_parts_at_caller (h : excel) (c : rect) (cols : Z) :
  1 <= cols ->
  single_cell c = true ->
  on_sheet h (Rect (top c) (left c) 2 cols) = true ->
  on_sheet h c = true /\
  on_sheet h (item c 2 1) = true /\
  on_sheet h (item c 1 cols) = true.
Proof.
  intros Hc Hs Ho. unfold on_sheet, item, single_cell in *.
  cbn [top left height width] in *.
  rewrite !andb_true_iff, ?Z.leb_le, ?Z.eqb_eq in *.
  repeat split; lia.
Qed.

(** With [rows = 0] the block is not below the calling cell: the update
    writes [value] to the two rows of [cols] cells that start at the
    calling cell, which is overwritten. *)
Theorem automation_example_zero_rows_overwrites_caller (h : excel) (c : rect)
    (cols : Z) (value_ : data) :
  1 <= cols ->
  pywin32_installed h = true ->
  caller h = CallerCell c ->
  single_cell c = true ->
  resolve h (address_of h c) = Some c ->
  on_sheet h (Rect (top c) (left c) 2 cols) = true ->
  map outcome_of (asynchronous (excel_invoke (inv_automation_example 0 cols value_) h))
  = [Returned None_] /\
  writes (async_trace (excel_invoke (inv_automation_example 0 cols value_) h))
  = [(SetAttr (wrap (CRange (Rect (top c) (left c) 2 cols))) Value (VData value_),
      inl None_)] /\
  final_host (excel_invoke (inv_automation_example 0 cols value_) h)
  = set_cells h (write_range (Rect (top c) (left c) 2 cols) value_ (cells h)) /\
  cells (final_host (excel_invoke (inv_automation_example 0 cols value_) h))
        (top c) (left c)
  = element value_ 0 0.
Proof.
  intros Hcols Hi Hcaller Hs Hres Hsheet.
  destruct (on_sheet_parts_at_caller h c cols Hcols Hs Hsheet) as [Hc [Ha Hb]].
  assert (Hfinal :
    map outcome_of (asynchronous (excel_invoke (inv_automation_example 0 cols value_) h))
    = [Returned None_] /\
    writes (async_trace (excel_invoke (inv_automation_example 0 cols value_) h))
    = [(SetAttr (wrap (CRange (Rect (top c) (left c) 2 cols))) Value (VData value_),
        inl None_)] /\
    final_host (excel_invoke (inv_automation_example 0 cols value_) h)
    = set_cells h (write_range (Rect (top c) (left c) 2 cols) value_ (cells h))).
  { unfold excel_invoke, invoke_callback, final_host, async_trace.
    rewrite (imported_installed h Hi).
    cbn. rewrite Hcaller. cbn. rewrite Hres. unfold range_object. rewrite Hc. cbn.
    rewrite Ha. cbn. rewrite Hb. cbn.
    rewrite (block_at_caller c cols Hcols). rewrite Hsheet. cbn.
    repeat split; reflexivity. }
  destruct Hfinal as [H1 [H2 H3]].
  repeat (split; [assumption|]).
  rewrite H3. cbn [cells set_cells]. unfold write_range, inside.
  cbn [top left height width].
  replace ((top c <=? top c) && (top c <? top c + 2) &&
           (left c <=? left c) && (left c <? left c + cols)) with true.
  - rewrite !Z.sub_diag. reflexivity.
  - symmetry. rewrite !andb_true_iff, !Z.leb_le, !Z.ltb_lt. lia.
Qed.

(** [=automation_example(0, 3, "x")] in cell B2 of the sample workbook. *)
Lemma automation_example_zero_rows_overwrites_caller_witness :
  (1 <= 3 /\
   pywin32_installed sample_calc = true /\
   caller sample_calc = CallerCell B2 /\
   single_cell B2 = true /\
   resolve sample_calc (address_of sample_calc B2) = Some B2 /\
   on_sheet sample_calc (Rect (top B2) (left B2) 2 3) = true) /\
  cells (final_host (excel_invoke (inv_automation_example 0 3 (DStr "x")) sample_calc))
        (top B2) (left B2)
  = element (DStr "x") 0 0.
Proof.
  split; [repeat split; try reflexivity; lia|].
  exact (proj2 (proj2 (proj2
    (automation_example_zero_rows_overwrites_caller sample_calc B2 3 (DStr "x")
       ltac:(lia) eq_refl eq_refl eq_refl eq_refl eq_refl)))).
Defined.

Lemma below_last_row (h : excel) (c : rect) :
  top c = sheet_rows h -> on_sheet h (item c 2 1) = false.
Proof.
  intros Ht. apply not_true_is_false. unfold on_sheet, item.
  cbn [top left height width].
  rewrite !andb_true_iff, ?Z.leb_le. lia.
Qed.

(** In the last row of the sheet there is no cell below: the call-back
    still returns the address, but the update it scheduled ends with the
    COM error of [range.Resize(2, 1)] and the workbook is left as it was. *)
Theorem automation_example_on_last_row (h : excel) (c : rect)
    (rows cols : Z) (value_ : data) :
  pywin32_installed h = true ->
  caller h = CallerCell c ->
  resolve h (address_of h c) = Some c ->
  on_sheet h c = true ->
  top c = sheet_rows h ->
  outcome_of (synchronous (excel_invoke (inv_automation_example rows cols value_) h))
  = Returned (str (address_of h c)) /\
  map outcome_of (asynchronous (excel_invoke (inv_automation_example rows cols value_) h))
  = [Raised (com_error DISP_E_EXCEPTION)] /\
  writes (async_trace (excel_invoke (inv_automation_example rows cols value_) h)) = [] /\
  final_host (excel_invoke (inv_automation_example rows cols value_) h) = h.
Proof.
  intros Hi Hcaller Hres Hc Htop.
  pose proof (below_last_row h c Htop) as Ha.
  unfold excel_invoke, invoke_callback, final_host, async_trace.
  rewrite (imported_installed h Hi).
  cbn. rewrite Hcaller. cbn. rewrite Hres. unfold range_object. rewrite Hc. cbn.
  rewrite Ha. cbn. repeat split; reflexivity.
Qed.

(** [=automation_example(2, 3, "x")] in cell B1048576 of the sample
    workbook. *)
Lemma automation_example_on_last_row_witness :
  (pywin32_installed sample_last_row = true /\
   caller sample_last_row = CallerCell B1048576) /\
  final_host (excel_invoke (inv_automation_example 2 3 (DStr "x")) sample_last_row)
  = sample_last_row.
Proof.
  split; [split; reflexivity|].
  refine (proj2 (proj2 (proj2
    (automation_example_on_last_row sample_last_row B1048576 2 3 (DStr "x")
       eq_refl eq_refl _ eq_refl eq_refl)))).
  vm_compute. reflexivity.
Defined.

(** ** The alert of the menu function *)

(** Whatever the host is, when the alert of [win32com_menu_test] fails,
    the menu function ends with that exception and the write of "Hello!"
    that came before it stays accepted: nothing undoes it. *)
Theorem win32com_menu_test_keeps_its_write
    (H : Type) (serve : call -> H -> response * H) (s : pystate) (h : H)
    (args : list value) (e : exn) :
  In (Lib xlcAlert args, inr e) (trace_of (run serve win32com_menu_test s h)) ->
  outcome_of (run serve win32com_menu_test s h) = Raised e /\
  exists selection_ r,
    accepted_writes (trace_of (run serve win32com_menu_test s h))
    = [(SetAttr selection_ Value (str "Hello!"), inl r)].
Proof.
  revert args e.
  apply (wp_run H serve win32com_menu_test s h alert_failure_post).
  unfold alert_failure_post.
  wp_paths;
    repeat match goal with
           | Hin : In _ _ |- _ => cbn in Hin
           | Hin : _ \/ _ |- _ => destruct Hin as [Hin|Hin]
           | Hin : False |- _ => contradiction
           | Hin : (_, _) = (_, _) |- _ => inversion Hin; clear Hin; subst
           end;
    try reflexivity; eexists; eexists; reflexivity.
Qed.

(** The sample workbook behind a host that refuses alerts. *)
Lemma win32com_menu_test_keeps_its_write_witness :
  In (Lib xlcAlert [str "Some text has been written to the current cell"],
      inr (com_error DISP_E_EXCEPTION))
     (trace_of (run excel_without_alerts win32com_menu_test
                    (py_of (imported sample)) sample)) /\
  outcome_of (run excel_without_alerts win32com_menu_test
                  (py_of (imported sample)) sample)
  = Raised (com_error DISP_E_EXCEPTION) /\
  cells (host_of (run excel_without_alerts win32com_menu_test
                      (py_of (imported sample)) sample)) 1 1
  = DStr "Hello!".
Proof.
  assert (Hin : In (Lib xlcAlert [str "Some text has been written to the current cell"],
                    inr (com_error DISP_E_EXCEPTION))
                   (trace_of (run excel_without_alerts win32com_menu_test
                                  (py_of (imported sample)) sample))).
  { vm_compute. do 6 right. left. reflexivity. }
  split; [exact Hin|]. split.
  - exact (proj1 (win32com_menu_test_keeps_its_write excel excel_without_alerts
                    _ _ _ _ Hin)).
  - vm_compute. reflexivity.
Defined.

(** ** Clicking twice *)

Lemma button_example_step (h : excel) (r : rect) (d : data) :
  pywin32_installed h = true ->
  resolve h "button_output" = Some r ->
  on_sheet h r = true ->
  py_add_int (VData (read_range h r)) 1 = inl (VData d) ->
  outcome_of (synchronous (excel_invoke inv_button_example h)) = Returned None_ /\
  final_host (excel_invoke inv_button_example h)
  = set_cells h (write_range r d (cells h)) /\
  read_range (final_host (excel_invoke inv_button_example h)) r = d.
Proof.
  intros Hi Hr Ho Hadd.
  assert (Hfinal :
    outcome_of (synchronous (excel_invoke inv_button_example h)) = Returned None_ /\
    final_host (excel_invoke inv_button_example h)
    = set_cells h (write_range r d (cells h))).
  { unfold excel_invoke, invoke_callback, final_host. rewrite (imported_installed h Hi).
    cbn. rewrite Hr. unfold range_object. rewrite Ho. cbn. rewrite Hadd. cbn.
    split; reflexivity. }
  destruct Hfinal as [H1 H2]. repeat (split; [assumption|]).
  rewrite H2.
  destruct (py_add_int_inl _ _ _ Hadd) as [[d' [Hd' Hscalar]] Hnoarray].
  inversion Hd'; subst d'.
  apply read_after_write; [|exact Hscalar].
  unfold read_range in Hnoarray.
  destruct (single_cell r); [reflexivity|].
  exfalso. eapply Hnoarray. reflexivity.
Qed.

(** Two clicks add twice: when button_output is one cell whose value
    Python can add 1 to, and can add 1 to again, two invocations of
    [button_example] in a row leave in it the value plus 1 plus 1 and
    change nothing else. *)
Theorem button_example_twice (h : excel) (r : rect) (d1 d2 : data) :
  pywin32_installed h = true ->
  resolve h "button_output" = Some r ->
  on_sheet h r = true ->
  py_add_int (VData (read_range h r)) 1 = inl (VData d1) ->
  py_add_int (VData d1) 1 = inl (VData d2) ->
  read_range (final_host (excel_invoke inv_button_example
                            (final_host (excel_invoke inv_button_example h)))) r = d2 /\
  forall i j,
    inside r i j = false ->
    cells (final_host (excel_invoke inv_button_example
                         (final_host (excel_invoke inv_button_example h)))) i j
    = cells h i j.
Proof.
  intros Hi Hr Ho Hadd1 Hadd2.
  destruct (button_example_step h r d1 Hi Hr Ho Hadd1) as [_ [Hh1 Hread1]].
  remember (final_host (excel_invoke inv_button_example h)) as h1 eqn:Eh1.
  assert (Hi1 : pywin32_installed h1 = true) by (rewrite Hh1; exact Hi).
  assert (Hr1 : resolve h1 "button_output" = Some r) by (rewrite Hh1; exact Hr).
  assert (Ho1 : on_sheet h1 r = true) by (rewrite Hh1; exact Ho).
  rewrite <- Hread1 in Hadd2.
  destruct (button_example_step h1 r d2 Hi1 Hr1 Ho1 Hadd2) as [_ [Hh2 Hread2]].
  split; [exact Hread2|].
  intros i j Hout. rewrite Hh2. cbn [cells set_cells]. unfold write_range.
  rewrite Hout. rewrite Hh1. cbn [cells set_cells]. unfold write_range.
  rewrite Hout. reflexivity.
Qed.

(** Two clicks on the button of the sample workbook: 41.0, then 43.0. *)
Lemma button_example_twice_witness :
  (pywin32_installed sample = true /\
   resolve sample "button_output" = Some A5 /\
   on_sheet sample A5 = true /\
   py_add_int (VData (read_range sample A5)) 1 = inl (VData (DFloat (float_of_Z 42))) /\
   py_add_int (VData (DFloat (float_of_Z 42))) 1 = inl (VData (DFloat (float_of_Z 43)))) /\
  read_range (final_host (excel_invoke inv_button_example
                            (final_host (excel_invoke inv_button_example sample)))) A5
  = DFloat (float_of_Z 43).
Proof.
  assert (H1 : py_add_int (VData (read_range sample A5)) 1
               = inl (VData (DFloat (float_of_Z 42)))) by (vm_compute; reflexivity).
  assert (H2 : py_add_int (VData (DFloat (float_of_Z 42))) 1
               = inl (VData (DFloat (float_of_Z 43)))) by (vm_compute; reflexivity).
  split; [repeat split; try reflexivity; assumption|].
  exact (proj1 (button_example_twice sample A5 _ _ eq_refl eq_refl eq_refl H1 H2)).
Defined.
